(** * backend-ramsis: the Express/Mongoose rental backend, embedded in Rocq

    The development follows [backend/server.js] and the two Mongoose schemas
    ([backend/models/vehicle.js] and the reservation model).  The pieces of
    the JavaScript runtime the program calls into (regular expressions,
    [path.extname], [String.prototype.toLowerCase], Mongoose's schema
    enforcement, multer's pipeline, Express routing) are modelled as small
    executable functions; every request handler is transcribed from the
    source as a function from the server state and the request to a
    response and a new state. *)

From stdpp Require Import base strings pretty list gmap fin_maps sorting.
From Stdlib Require Import ZArith Ascii String Lia.

Local Open Scope string_scope.
Set Warnings "-register-all,-clear-no-such-hyp".

(** ** JavaScript strings *)

Module JS.

(** Strings are sequences of bytes; [toLowerCase] is modelled on the ASCII
    range, which is where every literal of the program lives. *)
Definition lower_ascii (c : ascii) : ascii :=
  let n := nat_of_ascii c in
  if (65 <=? n)%nat && (n <=? 90)%nat then ascii_of_nat (n + 32) else c.

Fixpoint toLowerCase (s : string) : string :=
  match s with
  | EmptyString => EmptyString
  | String c s' => String (lower_ascii c) (toLowerCase s')
  end.

(** [s.startsWith(p)] *)
Fixpoint startsWith (p s : string) : bool :=
  match p, s with
  | EmptyString, _ => true
  | String a p', String b s' => if Ascii.eqb a b then startsWith p' s' else false
  | String _ _, EmptyString => false
  end.

(** The fragment of regular expressions the program uses: alternations of
    literals, without anchors or flags. *)
Inductive RegExp : Type :=
  | RLit (lit : string)
  | RAlt (r1 r2 : RegExp).

(** [r] matches at the very start of [s]. *)
Fixpoint matches_here (r : RegExp) (s : string) : bool :=
  match r with
  | RLit lit => startsWith lit s
  | RAlt r1 r2 => matches_here r1 s || matches_here r2 s
  end.

(** [r.test(s)]: an unanchored search, trying every start position. *)
Fixpoint test (r : RegExp) (s : string) : bool :=
  matches_here r s ||
  match s with
  | EmptyString => false
  | String _ s' => test r s'
  end.



End JS.

(** ** Node's [path.extname] (POSIX flavour) *)

Module Path.

Definition slash : ascii := "/"%char.
Definition dot : ascii := "."%char.

Fixpoint rev_onto (s acc : string) : string :=
  match s with
  | EmptyString => acc
  | String c s' => rev_onto s' (String c acc)
  end.

Definition rev (s : string) : string := rev_onto s EmptyString.

Fixpoint drop_slashes (s : string) : string :=
  match s with
  | String c s' => if Ascii.eqb c slash then drop_slashes s' else s
  | EmptyString => EmptyString
  end.

Fixpoint take_component (s : string) : string :=
  match s with
  | String c s' => if Ascii.eqb c slash then EmptyString else String c (take_component s')
  | EmptyString => EmptyString
  end.

(** Splits a reversed component at its first dot: the characters before it
    (the reversed extension body) and the characters after it. *)
Fixpoint split_dot (s : string) : option (string * string) :=
  match s with
  | EmptyString => None
  | String c s' =>
      if Ascii.eqb c dot then Some (EmptyString, s')
      else match split_dot s' with
           | Some (e, rest) => Some (String c e, rest)
           | None => None
           end
  end.

(** [path.extname(p)]: from the last dot of the last path component to its
    end; empty when the component has no dot, when its only dot is its first
    character, or when the component is [".."]. *)
Definition extname (p : string) : string :=
  let comp := take_component (drop_slashes (rev p)) in
  match split_dot comp with
  | None => EmptyString
  | Some (e, rest) =>
      match e, rest with
      | _, EmptyString => EmptyString
      | EmptyString, "." => EmptyString
      | _, _ => String dot (rev e)
      end
  end.


End Path.

(** ** Errors and the error monad *)

(** The exceptions the program can see.  Only [message] is ever read by the
    handlers; the constructors keep apart where an error was raised. *)
Inductive Error : Type :=
  | ValidatorError (path kind : string)
  | CastError (kind path : string)
  | DriverError (msg : string)
  | MulterError (msg : string)
  | PlainError (msg : string).

(** [error.message].  The wording of the library errors is approximate. *)
Definition message (e : Error) : string :=
  match e with
  | ValidatorError path kind =>
      "Validation failed: " ++ path ++ ": validator `" ++ kind ++ "` failed"
  | CastError kind path => "Cast to " ++ kind ++ " failed at path " ++ path
  | DriverError msg => msg
  | MulterError msg => msg
  | PlainError msg => msg
  end.

(** A computation that returns or throws. *)
Inductive Result (A : Type) : Type :=
  | Ok (a : A)
  | Throw (e : Error).
Arguments Ok {A} a.
Arguments Throw {A} e.

Definition bind {A B : Type} (r : Result A) (k : A -> Result B) : Result B :=
  match r with
  | Ok a => k a
  | Throw e => Throw e
  end.

Notation "'let*' x := r 'in' k" := (bind r (fun x => k))
  (at level 10, x pattern, r at level 100, k at level 200).

(** ** The world around one request *)

(** What a request reads from the process and the outside world. *)
Record Env : Type := mkEnv {
  (** [process.env.NODE_ENV] *)
  NODE_ENV : option string;
  (** the value of the [k]-th call of [Date.now()] *)
  Date_now : nat -> N;
  (** the value of the [k]-th [Math.round(Math.random() * 1E9)] *)
  Math_random : nat -> N;
  (** the [_id] a document created by this request receives *)
  new_ObjectId : string;
  (** [Some msg]: the data store is unreachable and its driver rejects
      every call of this request with an error of message [msg] *)
  store_failure : option string
}.

(** ** The upload pipeline ([multer]) *)

(** One part of a multipart request, as multer hands it to the callbacks. *)
Record File : Type := mkFile {
  fieldname : string;
  originalname : string;
  mimetype : string;
  content : string
}.

(** [const allowedTypes = /jpeg|jpg|png|gif/] *)
Definition allowedTypes : JS.RegExp :=
  JS.RAlt (JS.RLit "jpeg") (JS.RAlt (JS.RLit "jpg") (JS.RAlt (JS.RLit "png") (JS.RLit "gif"))).

Definition fileFilter_error : string :=
  "Only image files (jpg, jpeg, png, gif) are allowed!".

(** [upload.fileFilter]: [Ok true] is [cb(null, true)], [Throw (PlainError msg)]
    is [cb(new Error(msg))]. *)
Definition fileFilter (file : File) : Result bool :=
  let mimetype := JS.test allowedTypes (mimetype file) in
  let extname := JS.test allowedTypes (JS.toLowerCase (Path.extname (originalname file))) in
  if mimetype && extname then Ok true
  else Throw (PlainError fileFilter_error).

(** [storage.filename]: [now] is the value of [Date.now()] and [rnd] the
    value of [Math.round(Math.random() * 1E9)] at the call. *)
Definition filename (now rnd : N) (file : File) : string :=
  let uniqueSuffix := pretty now ++ "-" ++ pretty rnd in
  let ext := JS.toLowerCase (Path.extname (originalname file)) in
  uniqueSuffix ++ ext.

(** ** The data store as seen through Mongoose *)

(** The program leaves every rule about its records to the schemas and to
    the five model operations it calls.  This module gives those operations
    the meaning the library documents for them, as far as the program
    relies on it:
    - a new document keeps the declared paths only (strict mode), takes the
      default of a path the payload lacks, and is saved only if every path
      casts to its type and passes its [required] and [enum] validators;
    - [findByIdAndUpdate] with a plain object sets the given keys and no
      other ([$set]); with [runValidators] the given keys are validated, a
      nested object given for a nested path replaces it as a whole;
    - an id that is not a well-formed ObjectId makes the query fail with a
      cast error before the store is reached;
    - a sort on a key orders by that key only; documents the key does not
      tell apart come back in the natural order of the collection.
    Casting is strict: a payload value of another JSON type than the path's
    fails to cast (the library would coerce some of them). *)
Module Mongoose.

(** Values of document fields and of request payloads.  A payload value that
    denotes a date is represented by [VDate] (a bare number in a date
    position is read as milliseconds, as the Date caster does); a string in
    an ObjectId position is cast by [castObjectId]. *)
Inductive value : Type :=
  | VNull
  | VBool (b : bool)
  | VNum (n : Z)
  | VStr (s : string)
  | VDate (ms : Z)
  | VOid (hex : string)
  | VArr (elems : list value)
  | VObj (fields : list (string * value)).

Inductive SchemaType : Type := TString | TNumber | TBoolean | TDate | TObjectId.

Inductive DefaultValue : Type :=
  | DConst (v : value)
  | DDateNow.

(** The options of one schema path: [{ type, required, enum, default }]. *)
Record SchemaPath : Type := mkPath {
  type : SchemaType;
  required : bool;
  enum : option (list string);
  default : option DefaultValue
}.

Inductive SchemaField : Type :=
  | Leaf (p : SchemaPath)
  | ArrayOf (t : SchemaType)
  | Nested (fields : list (string * SchemaPath)).

Definition Schema : Type := list (string * SchemaField).

Record Model : Type := mkModel {
  modelName : string;
  schema : Schema
}.

(** A stored document: its [_id] and its fields. *)
Definition Doc : Type := string * gmap string value.
(** A collection in natural (insertion) order. *)
Definition Collection : Type := list Doc.

Definition type_name (t : SchemaType) : string :=
  match t with
  | TString => "string" | TNumber => "Number" | TBoolean => "Boolean"
  | TDate => "date" | TObjectId => "ObjectId"
  end.

Definition isHexDigit (c : ascii) : bool :=
  let n := nat_of_ascii c in
  ((48 <=? n) && (n <=? 57) || (65 <=? n) && (n <=? 70) || (97 <=? n) && (n <=? 102))%nat.

(** A well-formed object id: 24 hexadecimal digits. *)
Definition isValidObjectId (s : string) : bool :=
  (String.length s =? 24)%nat && forallb isHexDigit (list_ascii_of_string s).

Definition castObjectId (path s : string) : Result string :=
  if isValidObjectId s then Ok (JS.toLowerCase s) else Throw (CastError "ObjectId" path).

(** Casting a payload value to the declared type.  A value of another JSON
    type is a cast failure; [null] is kept. *)
Definition cast (path : string) (t : SchemaType) (v : value) : Result value :=
  match t, v with
  | _, VNull => Ok VNull
  | TString, VStr s => Ok (VStr s)
  | TNumber, VNum n => Ok (VNum n)
  | TBoolean, VBool b => Ok (VBool b)
  | TDate, VDate ms => Ok (VDate ms)
  | TDate, VNum ms => Ok (VDate ms)
  | TObjectId, VOid h => Ok (VOid h)
  | TObjectId, VStr s => let* h := castObjectId path s in Ok (VOid h)
  | _, _ => Throw (CastError (type_name t) path)
  end.

(** The [required] validator: [null] and the empty string do not count. *)
Definition checkRequired (v : value) : bool :=
  match v with
  | VNull => false
  | VStr EmptyString => false
  | _ => true
  end.

(** The [enum] validator; like every validator but [required] it lets an
    unset ([null]) value through. *)
Definition enumValidator (vals : list string) (v : value) : bool :=
  match v with
  | VNull => true
  | VStr s => bool_decide (s ∈ vals)
  | _ => false
  end.

(** Cast, then run the validators of the path. *)
Definition validate_path (path : string) (p : SchemaPath) (v : value) : Result value :=
  let* v' := cast path (type p) v in
  if required p && negb (checkRequired v') then Throw (ValidatorError path "required")
  else match enum p with
       | Some vals =>
           if enumValidator vals v' then Ok v' else Throw (ValidatorError path "enum")
       | None => Ok v'
       end.

Definition default_value (now : Z) (d : DefaultValue) : value :=
  match d with
  | DConst v => v
  | DDateNow => VDate now
  end.

(** A path of a new document: the payload's value, else the default, else
    nothing (which the [required] validator refuses). *)
Definition init_path (now : Z) (path : string) (p : SchemaPath) (given : option value)
  : Result (option value) :=
  match given, default p with
  | Some v, _ => let* v' := validate_path path p v in Ok (Some v')
  | None, Some d => let* v' := validate_path path p (default_value now d) in Ok (Some v')
  | None, None =>
      if required p then Throw (ValidatorError path "required") else Ok None
  end.

Fixpoint assoc {A : Type} (k : string) (kvs : list (string * A)) : option A :=
  match kvs with
  | [] => None
  | (k', v) :: rest => if String.eqb k k' then Some v else assoc k rest
  end.

Fixpoint cast_elems (path : string) (t : SchemaType) (l : list value) : Result (list value) :=
  match l with
  | [] => Ok []
  | v :: l' =>
      let* v' := cast path t v in
      let* rest := cast_elems path t l' in
      Ok (v' :: rest)
  end.

(** The fields of a nested object of a new document, in schema order;
    keys the schema does not declare are dropped (strict mode). *)
Fixpoint init_nested (now : Z) (pre : string) (fields : list (string * SchemaPath))
    (kvs : list (string * value)) : Result (list (string * value)) :=
  match fields with
  | [] => Ok []
  | (k, p) :: fs =>
      let* o := init_path now (pre ++ "." ++ k) p (assoc k kvs) in
      let* rest := init_nested now pre fs kvs in
      Ok (match o with Some v => (k, v) :: rest | None => rest end)
  end.

Definition init_field (now : Z) (k : string) (f : SchemaField) (given : option value)
  : Result (option value) :=
  match f with
  | Leaf p => init_path now k p given
  | ArrayOf t =>
      match given with
      | None => Ok (Some (VArr []))
      | Some (VArr l) => let* l' := cast_elems k t l in Ok (Some (VArr l'))
      | Some _ => Throw (CastError "Array" k)
      end
  | Nested fs =>
      match given with
      | None => let* o := init_nested now k fs [] in Ok (Some (VObj o))
      | Some (VObj kvs) => let* o := init_nested now k fs kvs in Ok (Some (VObj o))
      | Some _ => Throw (CastError "Object" k)
      end
  end.

(** [new Model(body)] followed by the validation [save()] runs. *)
Fixpoint init_doc (now : Z) (sch : Schema) (body : gmap string value)
  : Result (gmap string value) :=
  match sch with
  | [] => Ok ∅
  | (k, f) :: sch' =>
      let* o := init_field now k f (body !! k) in
      let* d := init_doc now sch' body in
      Ok (match o with Some v => <[k:=v]> d | None => d end)
  end.

(** *** Updates *)

(** The fields of a nested object in an update: only the keys given are
    cast and validated, keys the schema does not declare are dropped. *)
Fixpoint update_nested (pre : string) (fields : list (string * SchemaPath))
    (kvs : list (string * value)) : Result (list (string * value)) :=
  match kvs with
  | [] => Ok []
  | (k, v) :: rest =>
      match assoc k fields with
      | Some p =>
          let* v' := validate_path (pre ++ "." ++ k) p v in
          let* r := update_nested pre fields rest in
          Ok ((k, v') :: r)
      | None => update_nested pre fields rest
      end
  end.

(** One key of an update document, cast against the schema and checked by
    the update validators ([runValidators: true]); [Ok None] when strict
    mode drops the key. *)
Definition cast_update_field (sch : Schema) (k : string) (v : value) : Result (option value) :=
  match assoc k sch with
  | None => Ok None
  | Some (Leaf p) => let* v' := validate_path k p v in Ok (Some v')
  | Some (ArrayOf t) =>
      match v with
      | VArr l => let* l' := cast_elems k t l in Ok (Some (VArr l'))
      | _ => Throw (CastError "Array" k)
      end
  | Some (Nested fs) =>
      match v with
      | VObj kvs => let* o := update_nested k fs kvs in Ok (Some (VObj o))
      | _ => Throw (CastError "Object" k)
      end
  end.

Fixpoint check_update (sch : Schema) (kvs : list (string * value)) : Result unit :=
  match kvs with
  | [] => Ok tt
  | (k, v) :: rest =>
      let* _ := cast_update_field sch k v in
      check_update sch rest
  end.

(** The [$set] document Mongoose sends for a plain update object. *)
Definition cast_update (sch : Schema) (update : gmap string value)
  : Result (gmap string value) :=
  let* _ := check_update sch (map_to_list update) in
  Ok (map_imap (fun k v => match cast_update_field sch k v with
                           | Ok o => o
                           | Throw _ => None
                           end) update).

(** *** Collections *)

Fixpoint lookup_doc (id : string) (c : Collection) : option (gmap string value) :=
  match c with
  | [] => None
  | (id', d) :: c' => if String.eqb id id' then Some d else lookup_doc id c'
  end.

Fixpoint replace_doc (id : string) (d : gmap string value) (c : Collection) : Collection :=
  match c with
  | [] => []
  | (id', d') :: c' =>
      if String.eqb id id' then (id', d) :: c' else (id', d') :: replace_doc id d c'
  end.

Fixpoint remove_doc (id : string) (c : Collection) : Collection :=
  match c with
  | [] => []
  | (id', d') :: c' => if String.eqb id id' then c' else (id', d') :: remove_doc id c'
  end.

(** The sort key of a document: the date stored under [key]; a document
    without one sorts as [null], below every date. *)
Definition sort_key (key : string) (d : Doc) : option Z :=
  match d.2 !! key with
  | Some (VDate ms) => Some ms
  | _ => None
  end.

Definition key_le (a b : option Z) : bool :=
  match a, b with
  | None, _ => true
  | Some _, None => false
  | Some x, Some y => (x <=? y)%Z
  end.

Fixpoint insert_desc (key : string) (x : Doc) (l : list Doc) : list Doc :=
  match l with
  | [] => [x]
  | y :: l' =>
      if key_le (sort_key key y) (sort_key key x) then x :: y :: l'
      else y :: insert_desc key x l'
  end.

(** [.sort({ key: -1 })]: descending by [key]; documents the key does not
    tell apart stay in natural order. *)
Definition sort_desc (key : string) (c : list Doc) : list Doc :=
  foldr (insert_desc key) [] c.

(** *** Model operations *)

(** Every operation reaches the data store once. *)
Definition exec (env : Env) : Result unit :=
  match store_failure env with
  | Some msg => Throw (DriverError msg)
  | None => Ok tt
  end.

(** [M.find().sort({ key: -1 })] *)
Definition find_sort_desc (env : Env) (key : string) (c : Collection) : Result (list Doc) :=
  let* _ := exec env in
  Ok (sort_desc key c).

(** [M.findById(id)] *)
Definition findById (env : Env) (id : string) (c : Collection) : Result (option Doc) :=
  let* id' := castObjectId "_id" id in
  let* _ := exec env in
  Ok (match lookup_doc id' c with
      | Some d => Some (id', d)
      | None => None
      end).

(** [new M(body)] followed by [.save()] *)
Definition save (M : Model) (env : Env) (body : gmap string value) (c : Collection)
  : Result (Doc * Collection) :=
  let* d := init_doc (Z.of_N (Date_now env 0)) (schema M) body in
  let* _ := exec env in
  let id := new_ObjectId env in
  match lookup_doc id c with
  | Some _ => Throw (DriverError "E11000 duplicate key error")
  | None => Ok ((id, d), (c ++ [(id, d)])%list)
  end.

(** [M.findByIdAndUpdate(id, update, { new: true, runValidators: true })] *)
Definition findByIdAndUpdate (M : Model) (env : Env) (id : string)
    (update : gmap string value) (c : Collection) : Result (option Doc * Collection) :=
  let* id' := castObjectId "_id" id in
  let* set := cast_update (schema M) update in
  let* _ := exec env in
  match lookup_doc id' c with
  | None => Ok (None, c)
  | Some d =>
      let d' := set ∪ d in
      Ok (Some (id', d'), replace_doc id' d' c)
  end.

(** [M.findByIdAndDelete(id)] *)
Definition findByIdAndDelete (env : Env) (id : string) (c : Collection)
  : Result (option Doc * Collection) :=
  let* id' := castObjectId "_id" id in
  let* _ := exec env in
  match lookup_doc id' c with
  | None => Ok (None, c)
  | Some d => Ok (Some (id', d), remove_doc id' c)
  end.

End Mongoose.

Import Mongoose.

(** ** The schemas *)

Definition str_required : SchemaPath := mkPath TString true None None.
Definition str_optional : SchemaPath := mkPath TString false None None.

(** [backend/models/vehicle.js] *)
Definition vehicleSchema : Schema :=
  [ ("name", Leaf str_required);
    ("image", Leaf str_required);
    ("gallery", ArrayOf TString);
    ("price", Leaf str_required);
    ("features", ArrayOf TString);
    ("description", Leaf str_required);
    ("rating", Leaf (mkPath TNumber false None (Some (DConst (VNum 5)))));
    ("isPopular", Leaf (mkPath TBoolean false None (Some (DConst (VBool false)))));
    ("specs", Nested
       [ ("transmission", str_required);
         ("fuel", str_required);
         ("power", str_optional);
         ("seats", mkPath TNumber false None (Some (DConst (VNum 5))));
         ("consumption", str_required);
         ("luggage", str_optional) ]) ].

Definition Vehicle : Model := mkModel "Vehicle" vehicleSchema.

(** The reservation model *)
Definition reservationSchema : Schema :=
  [ ("vehicleId", Leaf (mkPath TObjectId true None None));
    ("vehicleName", Leaf str_required);
    ("startDate", Leaf (mkPath TDate true None None));
    ("endDate", Leaf (mkPath TDate true None None));
    ("licenseNumber", Leaf str_required);
    ("pickupLocation", Leaf str_required);
    ("dropoffLocation", Leaf str_required);
    ("status", Leaf (mkPath TString false
                       (Some ["en attente"; "en cours"; "terminé"])
                       (Some (DConst (VStr "en attente")))));
    ("createdAt", Leaf (mkPath TDate false None (Some DDateNow))) ].

Definition Reservation : Model := mkModel "Reservation" reservationSchema.

(** ** The server state *)

Record Store : Type := mkStore {
  (** the [vehicles] collection *)
  vehicles : Collection;
  (** the [reservations] collection *)
  reservations : Collection;
  (** the [uploads] directory: stored file name to bytes *)
  uploads : gmap string string
}.

Definition with_vehicles (c : Collection) (st : Store) : Store :=
  mkStore c (reservations st) (uploads st).
Definition with_reservations (c : Collection) (st : Store) : Store :=
  mkStore (vehicles st) c (uploads st).
Definition with_uploads (dir : gmap string string) (st : Store) : Store :=
  mkStore (vehicles st) (reservations st) dir.

(** ** Requests and responses *)

Inductive Method : Type := GET | POST | PUT | DELETE.

Record Request : Type := mkRequest {
  method : Method;
  (** the segments of the request path *)
  path : list string;
  (** [req.body] after [express.json()] *)
  body : gmap string value;
  (** the file parts of a multipart body, in order *)
  files : list File
}.

(** Response bodies.  [JMessage m (Some e)] is [{ message: m, error: e }];
    a property whose value is [undefined] is not serialised, so
    [JMessage m None] is [{ message: m }]. *)
Inductive Body : Type :=
  | JDoc (d : Doc)
  | JDocs (ds : list Doc)
  | JMessage (msg : string) (error : option string)
  | JImageUrl (imageUrl : string)
  | JImageUrls (imageUrls : list string)
  | JHealth (timestamp : N)
  | FileBytes (bytes : string)
  | CannotRoute.

Record Response : Type := mkResponse {
  status : nat;
  payload : Body
}.

(** ** multer *)

(** [limits: { fileSize: 5 * 1024 * 1024 }] *)
Definition fileSize_limit : N := 5 * 1024 * 1024.

Definition remove_files (names : list string) (dir : gmap string string) : gmap string string :=
  foldr delete dir names.

(** The middleware built by [upload.single] and [upload.array]: every file
    part must carry the expected field name and stay within [maxCount]; it
    goes through [fileFilter], is named by [filename] and written to the
    directory.  When a part fails, the files this request has written are
    removed again and the error is passed on.  [k] counts the parts already
    named, [written] holds their names, newest first. *)
Fixpoint multer_parts (field : string) (maxCount : nat) (env : Env) (k : nat)
    (parts : list File) (written : list string) (dir : gmap string string)
    {struct parts} : Result (list string) * gmap string string :=
  match parts with
  | [] => (Ok (reverse written), dir)
  | f :: rest =>
      if negb (String.eqb (fieldname f) field) then
        (Throw (MulterError "Unexpected field"), remove_files written dir)
      else
        match maxCount with
        | O => (Throw (MulterError "Unexpected field"), remove_files written dir)
        | S n =>
            match fileFilter f with
            | Throw e => (Throw e, remove_files written dir)
            | Ok false => multer_parts field n env k rest written dir
            | Ok true =>
                if (fileSize_limit <? N.of_nat (String.length (content f)))%N then
                  (Throw (MulterError "File too large"), remove_files written dir)
                else
                  let name := filename (Date_now env k) (Math_random env k) f in
                  multer_parts field n env (S k) rest (name :: written)
                    (<[name := content f]> dir)
            end
        end
  end.

Definition multer (field : string) (maxCount : nat) (env : Env) (st : Store) (req : Request)
  : Result (list string) * Store :=
  let '(r, dir) := multer_parts field maxCount env 0 (files req) [] (uploads st) in
  (r, with_uploads dir st).

(** ** The handlers of [server.js] *)

Definition json (code : nat) (b : Body) : Response := mkResponse code b.

(** [errorHandler] *)
Definition errorHandler (env : Env) (err : Error) : Response :=
  json 500 (JMessage "Something went wrong!"
              (if bool_decide (NODE_ENV env = Some "development")
               then Some (message err) else None)).

(** [POST /api/upload] *)
Definition post_upload (st : Store) (env : Env) (req : Request) : Response * Store :=
  match multer "image" 1 env st req with
  | (Throw err, st') => (errorHandler env err, st')
  | (Ok names, st') =>
      match names with
      | [] => (json 400 (JMessage "No file uploaded" None), st')
      | name :: _ => (json 200 (JImageUrl ("/uploads/" ++ name)), st')
      end
  end.

(** [POST /api/upload-multiple] *)
Definition post_upload_multiple (st : Store) (env : Env) (req : Request) : Response * Store :=
  match multer "images" 3 env st req with
  | (Throw err, st') => (errorHandler env err, st')
  | (Ok names, st') =>
      match names with
      | [] => (json 400 (JMessage "No files uploaded" None), st')
      | _ => (json 200 (JImageUrls ((fun name => "/uploads/" ++ name) <$> names)), st')
      end
  end.

(** [GET /api/vehicles] *)
Definition get_vehicles (st : Store) (env : Env) : Response * Store :=
  match find_sort_desc env "createdAt" (vehicles st) with
  | Ok vs => (json 200 (JDocs vs), st)
  | Throw error => (json 500 (JMessage "Error fetching vehicles" (Some (message error))), st)
  end.

(** [GET /api/vehicles/:id] *)
Definition get_vehicle (st : Store) (env : Env) (id : string) : Response * Store :=
  match findById env id (vehicles st) with
  | Ok None => (json 404 (JMessage "Vehicle not found" None), st)
  | Ok (Some vehicle) => (json 200 (JDoc vehicle), st)
  | Throw error => (json 500 (JMessage "Error fetching vehicle" (Some (message error))), st)
  end.

(** [POST /api/vehicles] *)
Definition post_vehicles (st : Store) (env : Env) (req : Request) : Response * Store :=
  match save Vehicle env (body req) (vehicles st) with
  | Ok (newVehicle, c) => (json 201 (JDoc newVehicle), with_vehicles c st)
  | Throw error => (json 400 (JMessage "Error creating vehicle" (Some (message error))), st)
  end.

(** [PUT /api/vehicles/:id] *)
Definition put_vehicle (st : Store) (env : Env) (id : string) (req : Request)
  : Response * Store :=
  match findByIdAndUpdate Vehicle env id (body req) (vehicles st) with
  | Ok (None, _) => (json 404 (JMessage "Vehicle not found" None), st)
  | Ok (Some vehicle, c) => (json 200 (JDoc vehicle), with_vehicles c st)
  | Throw error => (json 400 (JMessage "Error updating vehicle" (Some (message error))), st)
  end.

(** [DELETE /api/vehicles/:id] *)
Definition delete_vehicle (st : Store) (env : Env) (id : string) : Response * Store :=
  match findByIdAndDelete env id (vehicles st) with
  | Ok (None, _) => (json 404 (JMessage "Vehicle not found" None), st)
  | Ok (Some _, c) => (json 200 (JMessage "Vehicle deleted successfully" None), with_vehicles c st)
  | Throw error => (json 500 (JMessage "Error deleting vehicle" (Some (message error))), st)
  end.

(** [GET /api/reservations] *)
Definition get_reservations (st : Store) (env : Env) : Response * Store :=
  match find_sort_desc env "createdAt" (reservations st) with
  | Ok rs => (json 200 (JDocs rs), st)
  | Throw error => (json 500 (JMessage "Error fetching reservations" (Some (message error))), st)
  end.

(** [POST /api/reservations] *)
Definition post_reservations (st : Store) (env : Env) (req : Request) : Response * Store :=
  match save Reservation env (body req) (reservations st) with
  | Ok (newReservation, c) => (json 201 (JDoc newReservation), with_reservations c st)
  | Throw error => (json 400 (JMessage "Error creating reservation" (Some (message error))), st)
  end.

(** [PUT /api/reservations/:id] *)
Definition put_reservation (st : Store) (env : Env) (id : string) (req : Request)
  : Response * Store :=
  match findByIdAndUpdate Reservation env id (body req) (reservations st) with
  | Ok (None, _) => (json 404 (JMessage "Reservation not found" None), st)
  | Ok (Some reservation, c) => (json 200 (JDoc reservation), with_reservations c st)
  | Throw error => (json 400 (JMessage "Error updating reservation" (Some (message error))), st)
  end.

(** [DELETE /api/reservations/:id] *)
Definition delete_reservation (st : Store) (env : Env) (id : string) : Response * Store :=
  match findByIdAndDelete env id (reservations st) with
  | Ok (None, _) => (json 404 (JMessage "Reservation not found" None), st)
  | Ok (Some _, c) =>
      (json 200 (JMessage "Reservation deleted successfully" None), with_reservations c st)
  | Throw error => (json 500 (JMessage "Error deleting reservation" (Some (message error))), st)
  end.

(** [GET /health] *)
Definition get_health (st : Store) (env : Env) : Response * Store :=
  (json 200 (JHealth (Date_now env 0)), st).

(** When no route answers, Express replies 404 itself. *)
Definition not_found (st : Store) : Response * Store :=
  (mkResponse 404 CannotRoute, st).

(** [express.static] mounted on [/uploads]: the file if it is there,
    otherwise the request falls through to the routes below. *)
Definition serve_upload (st : Store) (rest : list string) : option Response :=
  match rest with
  | [name] =>
      match uploads st !! name with
      | Some bytes => Some (mkResponse 200 (FileBytes bytes))
      | None => None
      end
  | _ => None
  end.

(** ** Routing *)

(** The routes, in the order [server.js] registers them. *)
Inductive Route : Type :=
  | PostUpload
  | PostUploadMultiple
  | GetVehicles
  | GetVehicle (id : string)
  | PostVehicles
  | PutVehicle (id : string)
  | DeleteVehicle (id : string)
  | GetReservations
  | PostReservations
  | PutReservation (id : string)
  | DeleteReservation (id : string)
  | GetHealth
  | NoRoute.

(** Route paths are matched segment by segment; the literal segments are
    compared without regard to case, a [:id] segment matches any one
    segment. *)
Definition dispatch (m : Method) (p : list string) : Route :=
  match m, JS.toLowerCase <$> take 2 p, drop 2 p with
  | POST, ["api"; "upload"], [] => PostUpload
  | POST, ["api"; "upload-multiple"], [] => PostUploadMultiple
  | GET, ["api"; "vehicles"], [] => GetVehicles
  | GET, ["api"; "vehicles"], [id] => GetVehicle id
  | POST, ["api"; "vehicles"], [] => PostVehicles
  | PUT, ["api"; "vehicles"], [id] => PutVehicle id
  | DELETE, ["api"; "vehicles"], [id] => DeleteVehicle id
  | GET, ["api"; "reservations"], [] => GetReservations
  | POST, ["api"; "reservations"], [] => PostReservations
  | PUT, ["api"; "reservations"], [id] => PutReservation id
  | DELETE, ["api"; "reservations"], [id] => DeleteReservation id
  | GET, ["health"], [] => GetHealth
  | _, _, _ => NoRoute
  end.

Definition run_route (r : Route) (st : Store) (env : Env) (req : Request) : Response * Store :=
  match r with
  | PostUpload => post_upload st env req
  | PostUploadMultiple => post_upload_multiple st env req
  | GetVehicles => get_vehicles st env
  | GetVehicle id => get_vehicle st env id
  | PostVehicles => post_vehicles st env req
  | PutVehicle id => put_vehicle st env id req
  | DeleteVehicle id => delete_vehicle st env id
  | GetReservations => get_reservations st env
  | PostReservations => post_reservations st env req
  | PutReservation id => put_reservation st env id req
  | DeleteReservation id => delete_reservation st env id
  | GetHealth => get_health st env
  | NoRoute => not_found st
  end.

(** The application: the static mount first, then the routes. *)
Definition app (st : Store) (env : Env) (req : Request) : Response * Store :=
  let static :=
    match method req, path req with
    | GET, mount :: rest =>
        if String.eqb (JS.toLowerCase mount) "uploads" then serve_upload st rest else None
    | _, _ => None
    end in
  match static with
  | Some r => (r, st)
  | None => run_route (dispatch (method req) (path req)) st env req
  end.

(** ** The upload validator in the words of the specification *)




(** ** Reservation status *)

(** The literals the reservation schema lists under [enum]. *)
Definition status_values : list string := ["en attente"; "en cours"; "terminé"].

(** The options the schema gives the [status] path. *)
Definition status_path : SchemaPath :=
  mkPath TString false (Some status_values) (Some (DConst (VStr "en attente"))).


(** The document's [status] is one of the literals [vals]. *)
Definition status_in (vals : list string) (d : gmap string value) : Prop :=
  exists s, d !! "status" = Some (VStr s) /\ s ∈ vals.

(** Every stored reservation has its [status] among [vals]. *)
Definition statuses_in (vals : list string) (st : Store) : Prop :=
  Forall (fun doc : Doc => status_in vals doc.2) (reservations st).

(** ** Reading responses and collections *)

(** A field of the document a response carries. *)
Definition returned_field (k : string) (r : Response) : option value :=
  match payload r with
  | JDoc d => d.2 !! k
  | _ => None
  end.


(** The ids of the documents a list response carries, in order. *)
Definition listed_ids (r : Response) : list string :=
  match payload r with
  | JDocs ds => ds.*1
  | _ => []
  end.

(** ** One resource, in the words of the specification *)

(** "GET/POST/PUT/DELETE /api/reservations mirrors Vehicle, same shapes":
    the five operations written once, over the model, the collection and
    the nouns of the messages. *)
Record Resource : Type := mkResource {
  model : Model;
  collection : Store -> Collection;
  with_collection : Collection -> Store -> Store;
  (** the noun as it starts a message: "Vehicle" *)
  Noun : string;
  (** the noun inside a message: "vehicle" *)
  noun : string;
  (** its plural: "vehicles" *)
  nouns : string
}.

Definition vehicleResource : Resource :=
  mkResource Vehicle vehicles with_vehicles "Vehicle" "vehicle" "vehicles".
Definition reservationResource : Resource :=
  mkResource Reservation reservations with_reservations
    "Reservation" "reservation" "reservations".

Definition resource_list (R : Resource) (st : Store) (env : Env) : Response * Store :=
  match find_sort_desc env "createdAt" (collection R st) with
  | Ok ds => (json 200 (JDocs ds), st)
  | Throw error =>
      (json 500 (JMessage ("Error fetching " ++ nouns R) (Some (message error))), st)
  end.

Definition resource_get (R : Resource) (st : Store) (env : Env) (id : string)
  : Response * Store :=
  match findById env id (collection R st) with
  | Ok None => (json 404 (JMessage (Noun R ++ " not found") None), st)
  | Ok (Some d) => (json 200 (JDoc d), st)
  | Throw error =>
      (json 500 (JMessage ("Error fetching " ++ noun R) (Some (message error))), st)
  end.

Definition resource_create (R : Resource) (st : Store) (env : Env) (req : Request)
  : Response * Store :=
  match save (model R) env (body req) (collection R st) with
  | Ok (d, c) => (json 201 (JDoc d), with_collection R c st)
  | Throw error =>
      (json 400 (JMessage ("Error creating " ++ noun R) (Some (message error))), st)
  end.

Definition resource_update (R : Resource) (st : Store) (env : Env) (id : string)
    (req : Request) : Response * Store :=
  match findByIdAndUpdate (model R) env id (body req) (collection R st) with
  | Ok (None, _) => (json 404 (JMessage (Noun R ++ " not found") None), st)
  | Ok (Some d, c) => (json 200 (JDoc d), with_collection R c st)
  | Throw error =>
      (json 400 (JMessage ("Error updating " ++ noun R) (Some (message error))), st)
  end.

Definition resource_delete (R : Resource) (st : Store) (env : Env) (id : string)
  : Response * Store :=
  match findByIdAndDelete env id (collection R st) with
  | Ok (None, _) => (json 404 (JMessage (Noun R ++ " not found") None), st)
  | Ok (Some _, c) =>
      (json 200 (JMessage (Noun R ++ " deleted successfully") None), with_collection R c st)
  | Throw error =>
      (json 500 (JMessage ("Error deleting " ++ noun R) (Some (message error))), st)
  end.

(** The two resources the server exposes. *)
Definition is_resource (R : Resource) : Prop :=
  R = vehicleResource \/ R = reservationResource.

(** ** Sample data *)

Module Sample.

Definition idA : string := "aaaaaaaaaaaaaaaaaaaaaaaa".
Definition idB : string := "bbbbbbbbbbbbbbbbbbbbbbbb".

(** A request environment: the clock reads [now], new documents get [oid]. *)
Definition env (mode : option string) (now : N) (oid : string) : Env :=
  mkEnv mode (fun _ => now) (fun _ => 42%N) oid None.

(** The same with an unreachable data store. *)
Definition env_down (mode : option string) (msg : string) : Env :=
  mkEnv mode (fun _ => 1700000000000%N) (fun _ => 42%N) idA (Some msg).

Definition production : option string := Some "production".

Definition empty : Store := mkStore [] [] ∅.

Definition specs : value :=
  VObj [("transmission", VStr "automatic"); ("fuel", VStr "diesel");
        ("consumption", VStr "5L/100km")].

Definition vehicleA : gmap string value :=
  list_to_map [("name", VStr "Clio"); ("image", VStr "/uploads/clio.png");
               ("price", VStr "80"); ("description", VStr "city car");
               ("specs", specs)].

Definition vehicleB : gmap string value := <["name" := VStr "Duster"]> vehicleA.

Definition reservationA : gmap string value :=
  list_to_map [("vehicleId", VStr idA); ("vehicleName", VStr "Clio");
               ("startDate", VDate 1700000000000); ("endDate", VDate 1700600000000);
               ("licenseNumber", VStr "TN-1234"); ("pickupLocation", VStr "Tunis");
               ("dropoffLocation", VStr "Sousse")].

Definition request (m : Method) (p : list string) (b : gmap string value) : Request :=
  mkRequest m p b [].

(** The store after [POST /api/vehicles] of A and then of B, one
    millisecond later. *)
Definition two_vehicles : Store :=
  let st1 := (app empty (env production 1700000000000 idA)
                (request POST ["api"; "vehicles"] vehicleA)).2 in
  (app st1 (env production 1700000000001 idB)
     (request POST ["api"; "vehicles"] vehicleB)).2.

(** The store after [POST /api/reservations] of A. *)
Definition one_reservation : Store :=
  (app empty (env production 1700000000000 idA)
     (request POST ["api"; "reservations"] reservationA)).2.

Definition text_file : File := mkFile "image" "notes.txt" "text/plain" "hello".
Definition png_file : File := mkFile "image" "Car.PNG" "image/png" "PNG-bytes".

End Sample.

(** ** Definitions for the further properties *)

(** The method a route answers to. *)
Definition route_method (r : Route) : option Method :=
  match r with
  | PostUpload | PostUploadMultiple | PostVehicles | PostReservations => Some POST
  | GetVehicles | GetVehicle _ | GetReservations | GetHealth => Some GET
  | PutVehicle _ | PutReservation _ => Some PUT
  | DeleteVehicle _ | DeleteReservation _ => Some DELETE
  | NoRoute => None
  end.

(** What the upload middleware asks of one file part: the expected field
    name, the validator's consent and a size within the limit. *)
Definition part_ok (field : string) (f : File) : Prop :=
  fieldname f = field /\ fileFilter f = Ok true /\
  (N.of_nat (String.length (content f)) <= fileSize_limit)%N.

(** The names the parts of a request receive, the [i]-th part from the
    [k + i]-th reading of the clock and of the random source. *)
Definition names_from (env : Env) (k : nat) (parts : list File) : list string :=
  imap (fun i f => filename (Date_now env (k + i)) (Math_random env (k + i)) f) parts.

(** The directory after the parts were written under these names. *)
Definition write_all (names : list string) (parts : list File)
    (dir : gmap string string) : gmap string string :=
  foldl (fun d nf => <[nf.1 := content nf.2]> d) dir (zip names parts).

(** Decimal digits. *)
Definition is_digit (c : ascii) : bool :=
  let n := nat_of_ascii c in (48 <=? n)%nat && (n <=? 57)%nat.

Fixpoint all_digits (s : string) : bool :=
  match s with
  | EmptyString => true
  | String c s' => is_digit c && all_digits s'
  end.

(** The string is empty or starts with a character that is no digit. *)
Definition stops_digits (s : string) : bool :=
  match s with
  | EmptyString => true
  | String c _ => negb (is_digit c)
  end.



(** * Properties *)

Local Arguments String.append : simpl nomatch.

(** ** Strings and regular expressions *)

Module JSFacts.
Import JS.

Lemma append_assoc (a b c : string) : (a ++ b) ++ c = a ++ b ++ c.
Proof. induction a as [|x a IH]; simpl; [done | by rewrite IH]. Qed.

Lemma append_nil_r (a : string) : a ++ "" = a.
Proof. induction a as [|x a IH]; simpl; [done | by rewrite IH]. Qed.





End JSFacts.

(** ** [path.extname] *)

Module PathFacts.
Import Path JSFacts.










(** An extension is empty or starts with the dot. *)
Lemma extname_shape (p : string) :
  extname p = "" \/ exists e, extname p = String dot e.
Proof.
  unfold extname. destruct (split_dot _) as [[e rest]|]; [|by left].
  destruct e as [|c e], rest as [|c' rest]; eauto.
  destruct c' as [[] [] [] [] [] [] [] []]; destruct rest; eauto.
Qed.


End PathFacts.

(** ** The Mongoose model *)

Module MongooseFacts.

Lemma bind_Ok {A B : Type} (r : Result A) (k : A -> Result B) (b : B) :
  bind r k = Ok b -> exists a, r = Ok a /\ k a = Ok b.
Proof. destruct r as [a|e]; simpl; [by exists a | done]. Qed.

Lemma castObjectId_Ok (path id id' : string) :
  castObjectId path id = Ok id' -> isValidObjectId id = true /\ id' = JS.toLowerCase id.
Proof. unfold castObjectId. destruct (isValidObjectId id); [by intros [= <-] | done]. Qed.

Lemma exec_Ok (env : Env) (u : unit) : exec env = Ok u -> store_failure env = None.
Proof. unfold exec. by destruct (store_failure env). Qed.

(** *** Collections *)

Lemma lookup_doc_elem_of (id : string) (c : Collection) (d : gmap string value) :
  lookup_doc id c = Some d -> (id, d) ∈ c.
Proof.
  induction c as [|[id' d'] c IH]; simpl; [done|].
  destruct (String.eqb id id') eqn:E.
  - apply String.eqb_eq in E as ->. intros [= ->]. by left.
  - intros H. right. by apply IH.
Qed.

Lemma lookup_replace_eq (id : string) (d d' : gmap string value) (c : Collection) :
  lookup_doc id c = Some d -> lookup_doc id (replace_doc id d' c) = Some d'.
Proof.
  induction c as [|[id0 d0] c IH]; simpl; [done|].
  destruct (String.eqb id id0) eqn:E; simpl; rewrite E; [by intros _ | apply IH].
Qed.


Lemma Forall_replace_doc (P : Doc -> Prop) (id : string) (d' : gmap string value)
    (c : Collection) :
  (forall d, (id, d) ∈ c -> P (id, d')) -> Forall P c -> Forall P (replace_doc id d' c).
Proof.
  induction c as [|[id0 d0] c IH]; simpl; intros Hd Hc; [done|].
  apply Forall_cons in Hc as [H0 Hc].
  destruct (String.eqb id id0) eqn:E.
  - apply String.eqb_eq in E as <-. apply Forall_cons. split; [|done].
    apply (Hd d0). by left.
  - apply Forall_cons. split; [done|]. apply IH; [|done].
    intros d Hin. apply (Hd d). by right.
Qed.

Lemma Forall_remove_doc (P : Doc -> Prop) (id : string) (c : Collection) :
  Forall P c -> Forall P (remove_doc id c).
Proof.
  induction c as [|[id0 d0] c IH]; simpl; intros Hc; [done|].
  apply Forall_cons in Hc as [H0 Hc].
  destruct (String.eqb id id0); [done|]. apply Forall_cons. auto.
Qed.

(** *** New documents *)

(** Every declared path of a new document holds what [init_field] made of
    the payload's value; no other path exists. *)
Lemma init_doc_lookup (now : Z) (sch : Schema) (body d : gmap string value) :
  NoDup sch.*1 -> init_doc now sch body = Ok d ->
  (forall k f, (k, f) ∈ sch -> init_field now k f (body !! k) = Ok (d !! k)) /\
  (forall k, k ∉ sch.*1 -> d !! k = None).
Proof.
  revert d. induction sch as [|[k0 f0] sch IH]; intros d Hnd; simpl.
  - intros [= <-]. split; [intros k f Hin; by apply elem_of_nil in Hin | done].
  - apply NoDup_cons in Hnd as [Hk0 Hnd]. simpl in Hk0.
    intros H. apply bind_Ok in H as (o & Ho & H). apply bind_Ok in H as (d0 & Hd0 & H).
    injection H as <-. destruct (IH d0 Hnd Hd0) as [IH1 IH2]. split.
    + intros k f [[= -> ->] | Hin]%elem_of_cons.
      * rewrite Ho. f_equal. destruct o; [by rewrite lookup_insert_eq|].
        symmetry. by apply IH2.
      * assert (k <> k0).
        { intros ->. apply Hk0. apply list_elem_of_fmap. by exists (k0, f). }
        rewrite (IH1 k f Hin). f_equal. destruct o; [by rewrite lookup_insert_ne|done].
    + intros k [Hne Hk]%not_elem_of_cons.
      destruct o; [rewrite lookup_insert_ne by done|]; by apply IH2.
Qed.

(** *** Updates *)

Lemma check_update_Ok (sch : Schema) (kvs : list (string * value)) :
  check_update sch kvs = Ok tt ->
  forall k v, (k, v) ∈ kvs -> exists o, cast_update_field sch k v = Ok o.
Proof.
  induction kvs as [|[k0 v0] kvs IH]; simpl; intros H k v Hin;
    [by apply elem_of_nil in Hin|].
  apply bind_Ok in H as (o & Ho & H).
  apply elem_of_cons in Hin as [[= -> ->] | Hin]; [by exists o | by apply IH].
Qed.

(** The [$set] document holds exactly the given keys the schema declares,
    each with its cast value. *)
Lemma cast_update_lookup (sch : Schema) (update set : gmap string value) (k : string) :
  cast_update sch update = Ok set ->
  match update !! k with
  | None => set !! k = None
  | Some v => cast_update_field sch k v = Ok (set !! k)
  end.
Proof.
  unfold cast_update. intros H. apply bind_Ok in H as ([] & Hchk & [= <-]).
  rewrite map_lookup_imap. destruct (update !! k) as [v|] eqn:Hk; simpl; [|done].
  destruct (check_update_Ok _ _ Hchk k v) as [o Ho]; [by apply elem_of_map_to_list|].
  by rewrite Ho.
Qed.

(** What a successful [findByIdAndUpdate] on an existing record does. *)
Lemma findByIdAndUpdate_Some (M : Model) (env : Env) (id : string)
    (update : gmap string value) (c c' : Collection) (doc : Doc) :
  findByIdAndUpdate M env id update c = Ok (Some doc, c') ->
  exists d set,
    doc.1 = JS.toLowerCase id /\ lookup_doc doc.1 c = Some d /\
    cast_update (schema M) update = Ok set /\
    doc.2 = set ∪ d /\ c' = replace_doc doc.1 doc.2 c.
Proof.
  unfold findByIdAndUpdate. intros H.
  apply bind_Ok in H as (id' & Hid & H). apply castObjectId_Ok in Hid as [_ ->].
  apply bind_Ok in H as (set & Hset & H). apply bind_Ok in H as (u & _ & H).
  destruct (lookup_doc _ c) as [d|] eqn:Hd; [|done].
  injection H as <- <-. by exists d, set.
Qed.

Lemma findByIdAndUpdate_None (M : Model) (env : Env) (id : string)
    (update : gmap string value) (c c' : Collection) :
  findByIdAndUpdate M env id update c = Ok (None, c') ->
  isValidObjectId id = true /\ store_failure env = None /\
  lookup_doc (JS.toLowerCase id) c = None /\ c' = c.
Proof.
  unfold findByIdAndUpdate. intros H.
  apply bind_Ok in H as (id' & Hid & H). apply castObjectId_Ok in Hid as [Hv ->].
  apply bind_Ok in H as (set & Hset & H). apply bind_Ok in H as (u & Hu & H).
  apply exec_Ok in Hu.
  destruct (lookup_doc _ c) as [d|] eqn:Hd; [done|]. by injection H as <-.
Qed.

Lemma update_frame (set d : gmap string value) (k : string) :
  set !! k = None -> (set ∪ d) !! k = d !! k.
Proof. intros H. by apply lookup_union_r. Qed.

Lemma update_given (set d : gmap string value) (k : string) (v : value) :
  set !! k = Some v -> (set ∪ d) !! k = Some v.
Proof. intros H. by apply lookup_union_Some_l. Qed.

End MongooseFacts.

(** ** The upload pipeline *)

Module UploadFacts.
Import JSFacts PathFacts.


Lemma fileFilter_cases (file : File) :
  fileFilter file = Ok true \/ fileFilter file = Throw (PlainError fileFilter_error).
Proof. unfold fileFilter. destruct (_ && _); auto. Qed.

Lemma lookup_remove_files (names : list string) (dir : gmap string string) (name : string) :
  remove_files names dir !! name = if bool_decide (name ∈ names) then None else dir !! name.
Proof.
  induction names as [|n names IH]; simpl; [done|].
  destruct (decide (n = name)) as [->|Hne].
  - rewrite lookup_delete_eq. rewrite bool_decide_eq_true_2; [done | by left].
  - rewrite lookup_delete_ne, IH by done.
    destruct (decide (name ∈ names)) as [Hin|Hnin].
    + rewrite !bool_decide_eq_true_2; [done | by right | done].
    + rewrite !bool_decide_eq_false_2; [done | | done].
      intros [?|?]%elem_of_cons; [congruence | done].
Qed.


(** When the middleware fails, the directory holds nothing it did not hold
    before the request. *)
Lemma multer_parts_no_trace (field : string) (env : Env) (base : gmap string string)
    (parts : list File) :
  forall n k written dir e dir',
    (forall name, name ∉ written -> dir !! name = base !! name) ->
    multer_parts field n env k parts written dir = (Throw e, dir') ->
    dir' ⊆ base.
Proof.
  assert (Hrm : forall written dir,
             (forall name, name ∉ written -> dir !! name = base !! name) ->
             remove_files written dir ⊆ base).
  { intros written dir Hinv. apply map_subseteq_spec. intros name b.
    rewrite lookup_remove_files. case_bool_decide; [done|]. by rewrite Hinv. }
  induction parts as [|f parts IH]; intros n k written dir e dir' Hinv; simpl; [done|].
  destruct (String.eqb _ _); simpl; [|intros [= <- <-]; by apply Hrm].
  destruct n as [|n]; [intros [= <- <-]; by apply Hrm|].
  destruct (fileFilter f) as [[]|]; [| by apply IH | intros [= <- <-]; by apply Hrm].
  destruct (_ <? _)%N; [intros [= <- <-]; by apply Hrm|].
  apply IH. intros name Hname. apply not_elem_of_cons in Hname as [Hne Hname].
  rewrite lookup_insert_ne by done. by apply Hinv.
Qed.


End UploadFacts.


(** ** The handlers *)

Module HandlerFacts.
Import MongooseFacts.

Lemma save_Ok (M : Model) (env : Env) (b : gmap string value) (c c' : Collection) (doc : Doc) :
  save M env b c = Ok (doc, c') ->
  init_doc (Z.of_N (Date_now env 0)) (schema M) b = Ok doc.2 /\
  store_failure env = None /\ c' = (c ++ [doc])%list.
Proof.
  unfold save. intros H. apply bind_Ok in H as (d & Hd & H).
  apply bind_Ok in H as (u & Hu & H). apply exec_Ok in Hu.
  destruct (lookup_doc _ c); [done|]. by injection H as <- <-.
Qed.

Lemma multer_keeps_records (field : string) (n : nat) (env : Env) (st : Store)
    (req : Request) :
  vehicles (multer field n env st req).2 = vehicles st /\
  reservations (multer field n env st req).2 = reservations st.
Proof. unfold multer. by destruct (multer_parts _ _ _ _ _ _ _). Qed.

(** *** The [status] path of the reservation schema *)

Lemma status_declared : ("status", Leaf status_path) ∈ reservationSchema.
Proof. unfold reservationSchema. set_solver. Qed.

Lemma reservation_paths_NoDup : NoDup reservationSchema.*1.
Proof. apply (bool_decide_unpack _). by vm_compute. Qed.

Lemma vehicle_paths_NoDup : NoDup vehicleSchema.*1.
Proof. apply (bool_decide_unpack _). by vm_compute. Qed.

Lemma validate_status (v v' : value) :
  validate_path "status" status_path v = Ok v' -> v <> VNull ->
  exists s, v = VStr s /\ v' = VStr s /\ s ∈ status_values.
Proof.
  intros H Hv. unfold validate_path in H. destruct v; simpl in H; try done.
  case_bool_decide; [|done]. injection H as <-. by eexists.
Qed.

Lemma new_reservation_status (now : Z) (b d : gmap string value) :
  init_doc now reservationSchema b = Ok d -> b !! "status" <> Some VNull ->
  status_in status_values d /\
  (b !! "status" = None -> d !! "status" = Some (VStr "en attente")).
Proof.
  intros Hd Hb.
  destruct (init_doc_lookup _ _ _ _ reservation_paths_NoDup Hd) as [Hin _].
  specialize (Hin _ _ status_declared). simpl in Hin.
  destruct (b !! "status") as [v|] eqn:Hv.
  - unfold init_path in Hin. apply bind_Ok in Hin as (v' & Hv' & [= Hin]).
    apply validate_status in Hv' as (s & -> & -> & Hs); [|congruence].
    split; [|done]. exists s. by split.
  - injection Hin as Hin. split; [|done]. exists "en attente". split; [done|].
    unfold status_values. set_solver.
Qed.

Lemma cast_status_field (v : value) (o : option value) :
  cast_update_field reservationSchema "status" v = Ok o -> v <> VNull ->
  exists s, o = Some (VStr s) /\ s ∈ status_values.
Proof.
  intros H Hv. change (cast_update_field reservationSchema "status" v)
    with (let* v' := validate_path "status" status_path v in Ok (Some v')) in H.
  apply bind_Ok in H as (v' & Hv' & [= <-]).
  apply validate_status in Hv' as (s & -> & -> & Hs); [by exists s | done].
Qed.

Lemma updated_reservation_status (u set d : gmap string value) :
  cast_update reservationSchema u = Ok set -> u !! "status" <> Some VNull ->
  status_in status_values d -> status_in status_values (set ∪ d).
Proof.
  intros Hset Hu (s & Hs & Hin). pose proof (cast_update_lookup _ _ _ "status" Hset) as H.
  destruct (u !! "status") as [v|] eqn:Hv.
  - apply cast_status_field in H as (s' & Hs' & Hin'); [|congruence].
    exists s'. split; [|done]. by apply update_given.
  - exists s. split; [|done]. by rewrite update_frame.
Qed.


(** *** Routing *)



Lemma app_get_vehicle (st : Store) (env : Env) (id : string) (b : gmap string value)
    (fs : list File) :
  app st env (mkRequest GET ["api"; "vehicles"; id] b fs) = get_vehicle st env id.
Proof. reflexivity. Qed.

(** *** Creating and updating reservations *)

Lemma post_reservations_statuses (st : Store) (env : Env) (req : Request) :
  statuses_in status_values st -> body req !! "status" <> Some VNull ->
  statuses_in status_values (post_reservations st env req).2 /\
  (forall d, payload (post_reservations st env req).1 = JDoc d ->
             status_in status_values d.2).
Proof.
  intros Hst Hb. unfold post_reservations.
  destruct (save _ _ _ _) as [[doc c]|e] eqn:Hsave; simpl; [|done].
  apply save_Ok in Hsave as (Hd & _ & ->).
  apply new_reservation_status in Hd as [Hd _]; [|done]. split.
  - unfold statuses_in. simpl. apply Forall_app. split; [done|]. by apply Forall_singleton.
  - by intros d [= <-].
Qed.

Lemma put_reservation_statuses (st : Store) (env : Env) (id : string) (req : Request) :
  statuses_in status_values st -> body req !! "status" <> Some VNull ->
  statuses_in status_values (put_reservation st env id req).2 /\
  (forall d, payload (put_reservation st env id req).1 = JDoc d ->
             status_in status_values d.2).
Proof.
  intros Hst Hb. unfold put_reservation.
  destruct (findByIdAndUpdate _ _ _ _ _) as [[[doc|] c]|e] eqn:Hupd; simpl; [|done..].
  apply findByIdAndUpdate_Some in Hupd as (d & set & Hid & Hd & Hset & Hdoc & ->).
  assert (Hok : status_in status_values doc.2).
  { rewrite Hdoc. eapply updated_reservation_status; [done..|].
    apply lookup_doc_elem_of in Hd.
    unfold statuses_in in Hst. rewrite Forall_forall in Hst. by apply (Hst _ Hd). }
  split; [|by intros ? [= <-]].
  unfold statuses_in. simpl. by apply Forall_replace_doc.
Qed.

End HandlerFacts.

(** ** Updates of stored records *)

Module UpdateFacts.
Import MongooseFacts.


Lemma castObjectId_invalid (path id : string) :
  isValidObjectId id = false -> castObjectId path id = Throw (CastError "ObjectId" path).
Proof. unfold castObjectId. by intros ->. Qed.





End UpdateFacts.

(** ** The two resources *)

Module ResourceFacts.

(** *** The routes of the two resources *)




Lemma app_resource_delete (R : Resource) (st : Store) (env : Env) (id : string)
    (b : gmap string value) (fs : list File) :
  is_resource R ->
  app st env (mkRequest DELETE ["api"; nouns R; id] b fs) = resource_delete R st env id.
Proof. by intros [-> | ->]. Qed.

(** *** Which status each operation answers with *)




Lemma resource_delete_status (R : Resource) (st : Store) (env : Env) (id : string) :
  (status (resource_delete R st env id).1 = 500 <->
     isValidObjectId id = false \/ store_failure env <> None) /\
  (status (resource_delete R st env id).1 = 404 <->
     isValidObjectId id = true /\ store_failure env = None
     /\ lookup_doc (JS.toLowerCase id) (collection R st) = None).
Proof.
  unfold resource_delete, findByIdAndDelete, castObjectId, exec.
  destruct (isValidObjectId id); simpl; [|naive_solver].
  destruct (store_failure env); simpl; [naive_solver|].
  destruct (lookup_doc _ _); simpl; naive_solver.
Qed.


End ResourceFacts.

(** ** Listing *)

Module ListFacts.
Import MongooseFacts HandlerFacts.

Local Arguments sort_desc : simpl never.

Lemma save_Ok_id (M : Model) (env : Env) (b : gmap string value) (c c' : Collection)
    (doc : Doc) :
  save M env b c = Ok (doc, c') -> doc.1 = new_ObjectId env.
Proof.
  unfold save. intros H. apply bind_Ok in H as (d & Hd & H).
  apply bind_Ok in H as (u & Hu & H).
  destruct (lookup_doc _ c); [done|]. by injection H as <- <-.
Qed.

(** The vehicle schema declares no [createdAt]: a new vehicle has none. *)
Lemma new_vehicle_has_no_createdAt (now : Z) (b d : gmap string value) :
  init_doc now vehicleSchema b = Ok d -> d !! "createdAt" = None.
Proof.
  intros Hd. destruct (init_doc_lookup _ _ _ _ vehicle_paths_NoDup Hd) as [_ Hout].
  apply Hout. apply (bool_decide_unpack _). by vm_compute.
Qed.

(** Strict mode drops [createdAt] from an update of a vehicle too. *)
Lemma vehicle_update_has_no_createdAt (u set : gmap string value) :
  cast_update vehicleSchema u = Ok set -> set !! "createdAt" = None.
Proof.
  intros Hset. pose proof (cast_update_lookup _ _ _ "createdAt" Hset) as H.
  destruct (u !! "createdAt"); [|done]. by injection H.
Qed.

(** A new reservation whose payload gives no [createdAt] is stamped with
    the clock. *)
Lemma new_reservation_createdAt (now : Z) (b d : gmap string value) :
  init_doc now reservationSchema b = Ok d -> b !! "createdAt" = None ->
  d !! "createdAt" = Some (VDate now).
Proof.
  intros Hd Hb. destruct (init_doc_lookup _ _ _ _ reservation_paths_NoDup Hd) as [Hin _].
  assert (Hdecl : ("createdAt", Leaf (mkPath TDate false None (Some DDateNow)))
                  ∈ reservationSchema) by (unfold reservationSchema; set_solver).
  specialize (Hin _ _ Hdecl). simpl in Hin. rewrite Hb in Hin. by injection Hin as <-.
Qed.

(** Documents without the key are left in natural order. *)
Lemma sort_desc_without_key (key : string) (c : list Doc) :
  Forall (fun d => sort_key key d = None) c -> sort_desc key c = c.
Proof.
  unfold sort_desc. induction 1 as [|d c Hd Hc IH]; simpl; [done|].
  rewrite IH. destruct c as [|d' c]; simpl; [done|].
  apply Forall_cons in Hc as [-> _]. done.
Qed.

(** Two reservations stamped by a clock that has advanced are listed
    newest first. *)
Lemma sort_desc_two_dates (a b : Doc) (ta tb : Z) :
  sort_key "createdAt" a = Some ta -> sort_key "createdAt" b = Some tb -> (ta < tb)%Z ->
  sort_desc "createdAt" [a; b] = [b; a].
Proof.
  intros Ha Hb Hlt. unfold sort_desc. simpl. rewrite Ha, Hb. simpl.
  destruct (Z.leb_spec tb ta); [lia | done].
Qed.

Lemma resource_create_201 (R : Resource) (st : Store) (env : Env) (req : Request) :
  is_resource R ->
  status (resource_create R st env req).1 = 201 ->
  exists d,
    init_doc (Z.of_N (Date_now env 0)) (schema (model R)) (body req) = Ok d /\
    (resource_create R st env req).1 = json 201 (JDoc (new_ObjectId env, d)) /\
    collection R (resource_create R st env req).2
    = (collection R st ++ [(new_ObjectId env, d)])%list.
Proof.
  intros HR. unfold resource_create.
  destruct (save _ _ _ _) as [[doc c]|e] eqn:Hsave; simpl; [|done]. intros _.
  pose proof (save_Ok_id _ _ _ _ _ _ Hsave) as Hid.
  apply save_Ok in Hsave as (Hd & _ & ->). exists doc.2.
  destruct doc as [id d]. simpl in *. subst id. by destruct HR as [-> | ->].
Qed.

Lemma reservation_list_newest_first (st : Store) (envA envB envL : Env)
    (bA bB : gmap string value) (fs : list File) :
  reservations st = [] -> store_failure envL = None ->
  bA !! "createdAt" = None -> bB !! "createdAt" = None ->
  (Date_now envA 0 < Date_now envB 0)%N ->
  let createA := app st envA (mkRequest POST ["api"; "reservations"] bA fs) in
  let createB := app createA.2 envB (mkRequest POST ["api"; "reservations"] bB fs) in
  status createA.1 = 201 -> status createB.1 = 201 ->
  listed_ids (app createB.2 envL (mkRequest GET ["api"; "reservations"] ∅ fs)).1
  = [new_ObjectId envB; new_ObjectId envA].
Proof.
  intros Hempty Hup HbA HbB Hclock createA createB HA HB.
  destruct (resource_create_201 reservationResource st envA _ (or_intror eq_refl) HA)
    as (dA & HdA & _ & HcA).
  destruct (resource_create_201 reservationResource createA.2 envB _ (or_intror eq_refl) HB)
    as (dB & HdB & _ & HcB).
  change (reservations createB.2 = (reservations createA.2 ++ [(new_ObjectId envB, dB)])%list)
    in HcB.
  change (reservations createA.2 = (reservations st ++ [(new_ObjectId envA, dA)])%list) in HcA.
  rewrite HcA, Hempty in HcB. simpl in HcB, HdA, HdB.
  apply new_reservation_createdAt in HdA; [|done].
  apply new_reservation_createdAt in HdB; [|done].
  change (app createB.2 envL _) with (get_reservations createB.2 envL).
  unfold get_reservations, find_sort_desc, exec. rewrite Hup, HcB. simpl.
  rewrite (sort_desc_two_dates _ _ (Z.of_N (Date_now envA 0)) (Z.of_N (Date_now envB 0)));
    [done | unfold sort_key; simpl; by rewrite ?HdA, ?HdB .. | lia].
Qed.

End ListFacts.

(** ** Invariants of the whole application *)

Module InvariantFacts.
Import MongooseFacts HandlerFacts ListFacts.

Lemma findByIdAndDelete_Ok (env : Env) (id : string) (c c' : Collection) (o : option Doc) :
  findByIdAndDelete env id c = Ok (o, c') ->
  c' = c \/ c' = remove_doc (JS.toLowerCase id) c.
Proof.
  unfold findByIdAndDelete. intros H.
  apply bind_Ok in H as (id' & Hid & H). apply castObjectId_Ok in Hid as [_ ->].
  apply bind_Ok in H as (u & _ & H).
  destruct (lookup_doc _ c); injection H as <- <-; auto.
Qed.

(** A property of the stored reservations that creating and updating
    reservations keep is kept by every request. *)
Lemma run_route_reservations (P : Doc -> Prop) (r : Route) (st : Store) (env : Env)
    (req : Request) :
  Forall P (reservations st) ->
  Forall P (reservations (post_reservations st env req).2) ->
  (forall id, Forall P (reservations (put_reservation st env id req).2)) ->
  Forall P (reservations (run_route r st env req).2).
Proof.
  intros Hst Hpost Hput. destruct r; simpl; try done.
  - unfold post_upload. pose proof (multer_keeps_records "image" 1 env st req) as [_ H].
    destruct (multer _ _ _ _ _) as [[names|e] st']; simpl in *; [destruct names|];
      simpl; by rewrite H.
  - unfold post_upload_multiple.
    pose proof (multer_keeps_records "images" 3 env st req) as [_ H].
    destruct (multer _ _ _ _ _) as [[names|e] st']; simpl in *; [destruct names|];
      simpl; by rewrite H.
  - unfold get_vehicles. by destruct (find_sort_desc _ _ _).
  - unfold get_vehicle. by destruct (findById _ _ _) as [[?|]|].
  - unfold post_vehicles. by destruct (save _ _ _ _) as [[? ?]|].
  - unfold put_vehicle. by destruct (findByIdAndUpdate _ _ _ _ _) as [[[?|] ?]|].
  - unfold delete_vehicle. by destruct (findByIdAndDelete _ _ _) as [[[?|] ?]|].
  - unfold get_reservations. by destruct (find_sort_desc _ _ _).
  - unfold delete_reservation.
    destruct (findByIdAndDelete _ _ _) as [[[?|] c]|] eqn:Hdel; simpl; try done.
    apply findByIdAndDelete_Ok in Hdel as [-> | ->]; [done | by apply Forall_remove_doc].
Qed.

Lemma app_reservations (P : Doc -> Prop) (st : Store) (env : Env) (req : Request) :
  Forall P (reservations st) ->
  Forall P (reservations (post_reservations st env req).2) ->
  (forall id, Forall P (reservations (put_reservation st env id req).2)) ->
  Forall P (reservations (app st env req).2).
Proof.
  intros Hst Hpost Hput. unfold app.
  destruct (match method req with GET => _ | _ => _ end); [done|].
  by apply run_route_reservations.
Qed.

(** No request makes the status of a stored reservation leave the enum,
    unless its payload sets the status to null. *)
Lemma app_keeps_statuses (st : Store) (env : Env) (req : Request) :
  statuses_in status_values st -> body req !! "status" <> Some VNull ->
  statuses_in status_values (app st env req).2.
Proof.
  intros Hst Hb. apply app_reservations; [done | |].
  - by apply post_reservations_statuses.
  - intros id. by apply put_reservation_statuses.
Qed.

(** The same for the vehicles: a property that creating and updating
    vehicles keep is kept by every request. *)
Lemma run_route_vehicles (P : Doc -> Prop) (r : Route) (st : Store) (env : Env)
    (req : Request) :
  Forall P (vehicles st) ->
  Forall P (vehicles (post_vehicles st env req).2) ->
  (forall id, Forall P (vehicles (put_vehicle st env id req).2)) ->
  Forall P (vehicles (run_route r st env req).2).
Proof.
  intros Hst Hpost Hput. destruct r; simpl; try done.
  - unfold post_upload. pose proof (multer_keeps_records "image" 1 env st req) as [H _].
    destruct (multer _ _ _ _ _) as [[names|e] st']; simpl in *; [destruct names|];
      simpl; by rewrite H.
  - unfold post_upload_multiple.
    pose proof (multer_keeps_records "images" 3 env st req) as [H _].
    destruct (multer _ _ _ _ _) as [[names|e] st']; simpl in *; [destruct names|];
      simpl; by rewrite H.
  - unfold get_vehicles. by destruct (find_sort_desc _ _ _).
  - unfold get_vehicle. by destruct (findById _ _ _) as [[?|]|].
  - unfold delete_vehicle.
    destruct (findByIdAndDelete _ _ _) as [[[?|] c]|] eqn:Hdel; simpl; try done.
    apply findByIdAndDelete_Ok in Hdel as [-> | ->]; [done | by apply Forall_remove_doc].
  - unfold get_reservations. by destruct (find_sort_desc _ _ _).
  - unfold post_reservations. by destruct (save _ _ _ _) as [[? ?]|].
  - unfold put_reservation. by destruct (findByIdAndUpdate _ _ _ _ _) as [[[?|] ?]|].
  - unfold delete_reservation. by destruct (findByIdAndDelete _ _ _) as [[[?|] ?]|].
Qed.

(** No request gives a stored vehicle a [createdAt]. *)
Lemma app_keeps_vehicles_unstamped (st : Store) (env : Env) (req : Request) :
  Forall (fun d : Doc => d.2 !! "createdAt" = None) (vehicles st) ->
  Forall (fun d : Doc => d.2 !! "createdAt" = None) (vehicles (app st env req).2).
Proof.
  intros Hst. unfold app.
  destruct (match method req with GET => _ | _ => _ end); [done|].
  apply run_route_vehicles; [done | |].
  - unfold post_vehicles. destruct (save _ _ _ _) as [[doc c]|e] eqn:Hsave; simpl; [|done].
    apply save_Ok in Hsave as (Hd & _ & ->). apply Forall_app. split; [done|].
    apply Forall_singleton. by eapply new_vehicle_has_no_createdAt.
  - intros id. unfold put_vehicle.
    destruct (findByIdAndUpdate _ _ _ _ _) as [[[doc|] c]|e] eqn:Hupd; simpl; [|done..].
    apply findByIdAndUpdate_Some in Hupd as (d & set & Hid & Hd & Hset & Hdoc & ->).
    apply Forall_replace_doc; [|done]. intros d0 Hin. simpl. rewrite Hdoc.
    rewrite update_frame by by eapply vehicle_update_has_no_createdAt.
    apply lookup_doc_elem_of in Hd. rewrite Forall_forall in Hst. by apply (Hst _ Hd).
Qed.

(** Vehicles without a [createdAt] are listed in the natural order of the
    collection. *)
Lemma vehicles_listed_in_natural_order (st : Store) (env : Env) (b : gmap string value)
    (fs : list File) :
  Forall (fun d : Doc => d.2 !! "createdAt" = None) (vehicles st) ->
  store_failure env = None ->
  listed_ids (app st env (mkRequest GET ["api"; "vehicles"] b fs)).1 = (vehicles st).*1.
Proof.
  intros Hst Hup. change (app st env _) with (get_vehicles st env).
  unfold get_vehicles, find_sort_desc, exec. rewrite Hup. simpl.
  rewrite sort_desc_without_key; [done|].
  eapply Forall_impl; [done|]. intros d Hd. unfold sort_key. by rewrite Hd.
Qed.

End InvariantFacts.

(** * The claims *)

Import JSFacts PathFacts MongooseFacts UploadFacts HandlerFacts UpdateFacts
  ResourceFacts ListFacts InvariantFacts.

Local Arguments sort_desc : simpl never.

(** ** C1: the status of a reservation *)




(** ** C2: the order of a list *)

(** C2 fails on the code for vehicles: the vehicle schema declares no
    [createdAt], so the sort of [GET /api/vehicles] has nothing to order by.
    Two vehicles created one after the other in an empty collection are
    listed oldest first, whatever the clock said. *)
Theorem vehicle_list_is_creation_order (st : Store) (envA envB envL : Env)
    (bA bB : gmap string value) (fs : list File) :
  vehicles st = [] -> store_failure envL = None ->
  let createA := app st envA (mkRequest POST ["api"; "vehicles"] bA fs) in
  let createB := app createA.2 envB (mkRequest POST ["api"; "vehicles"] bB fs) in
  status createA.1 = 201 -> status createB.1 = 201 ->
  listed_ids (app createB.2 envL (mkRequest GET ["api"; "vehicles"] ∅ fs)).1
  = [new_ObjectId envA; new_ObjectId envB].
Proof.
  intros Hempty Hup createA createB HA HB.
  destruct (resource_create_201 vehicleResource st envA _ (or_introl eq_refl) HA)
    as (dA & HdA & _ & HcA).
  destruct (resource_create_201 vehicleResource createA.2 envB _ (or_introl eq_refl) HB)
    as (dB & HdB & _ & HcB).
  change (vehicles createB.2 = (vehicles createA.2 ++ [(new_ObjectId envB, dB)])%list) in HcB.
  change (vehicles createA.2 = (vehicles st ++ [(new_ObjectId envA, dA)])%list) in HcA.
  rewrite HcA, Hempty in HcB. simpl in HcB, HdA, HdB.
  apply new_vehicle_has_no_createdAt in HdA, HdB.
  change (app createB.2 envL _) with (get_vehicles createB.2 envL).
  unfold get_vehicles, find_sort_desc, exec. rewrite Hup, HcB. simpl.
  rewrite sort_desc_without_key; [done|].
  repeat constructor; unfold sort_key; simpl; by rewrite ?HdA, ?HdB.
Qed.

Lemma vehicle_list_is_creation_order_witness :
  listed_ids
    (app Sample.two_vehicles (Sample.env Sample.production 1700000000002 Sample.idA)
       (Sample.request GET ["api"; "vehicles"] ∅)).1
  = [Sample.idA; Sample.idB].
Proof.
  refine (vehicle_list_is_creation_order Sample.empty
            (Sample.env Sample.production 1700000000000 Sample.idA)
            (Sample.env Sample.production 1700000000001 Sample.idB)
            (Sample.env Sample.production 1700000000002 Sample.idA)
            Sample.vehicleA Sample.vehicleB [] _ _ _ _).
  - reflexivity.
  - reflexivity.
  - vm_compute. reflexivity.
  - vm_compute. reflexivity.
Defined.

(** ** C3: the upload validator *)




(** ** C4: failures and their status codes *)




(** ** C5: the reservation endpoints *)

(** C5, as the specification states it, fails: no route reads one
    reservation.  With a reservation stored under an id, the mirrored read
    would answer 200, but [GET /api/reservations/:id] answers the 404 of an
    unknown route. *)
Lemma reservation_by_id_has_no_route :
  let st := Sample.one_reservation in
  let env := Sample.env Sample.production 1700000000001 Sample.idB in
  is_Some (lookup_doc Sample.idA (reservations st)) /\
  status (resource_get reservationResource st env Sample.idA).1 = 200 /\
  (app st env (Sample.request GET ["api"; "reservations"; Sample.idA] ∅)).1
  = mkResponse 404 CannotRoute.
Proof. split; [|by vm_compute]. vm_compute. by eexists. Qed.

(** C5 (amended): the reservation endpoints mirror the vehicle endpoints
    for the list, POST, PUT and DELETE: each pair is the same operation over
    its own model, collection and nouns.  Reading one record exists for
    vehicles only; [GET /api/reservations/:id] matches no route and answers
    404 whether or not the id exists. *)
Theorem reservations_mirror_without_get_by_id (st : Store) (env : Env) (id : string)
    (b : gmap string value) (fs : list File) :
  let run m p := app st env (mkRequest m p b fs) in
  (run GET ["api"; "vehicles"] = resource_list vehicleResource st env /\
   run GET ["api"; "reservations"] = resource_list reservationResource st env) /\
  (run POST ["api"; "vehicles"]
   = resource_create vehicleResource st env (mkRequest POST ["api"; "vehicles"] b fs) /\
   run POST ["api"; "reservations"]
   = resource_create reservationResource st env
       (mkRequest POST ["api"; "reservations"] b fs)) /\
  (run PUT ["api"; "vehicles"; id]
   = resource_update vehicleResource st env id (mkRequest PUT ["api"; "vehicles"; id] b fs) /\
   run PUT ["api"; "reservations"; id]
   = resource_update reservationResource st env id
       (mkRequest PUT ["api"; "reservations"; id] b fs)) /\
  (run DELETE ["api"; "vehicles"; id] = resource_delete vehicleResource st env id /\
   run DELETE ["api"; "reservations"; id] = resource_delete reservationResource st env id) /\
  (run GET ["api"; "vehicles"; id] = resource_get vehicleResource st env id /\
   run GET ["api"; "reservations"; id] = not_found st).
Proof. repeat split. Qed.

(** ** C6: error detail in production *)

(** C6 fails on the code: only the fallback handler consults the
    deployment mode.  In production, when the data store is unreachable,
    the body of [GET /api/vehicles] carries the driver's message, while the
    fallback handler given the same error withholds it. *)
Theorem production_response_carries_detail (st : Store) (env : Env) (msg : string)
    (b : gmap string value) (fs : list File) :
  NODE_ENV env = Some "production" -> store_failure env = Some msg ->
  (app st env (mkRequest GET ["api"; "vehicles"] b fs)).1
  = json 500 (JMessage "Error fetching vehicles" (Some msg)) /\
  errorHandler env (DriverError msg) = json 500 (JMessage "Something went wrong!" None).
Proof.
  intros Hmode Hdown. split.
  - change (app st env _) with (get_vehicles st env).
    unfold get_vehicles, find_sort_desc, exec. by rewrite Hdown.
  - unfold errorHandler. rewrite Hmode. done.
Qed.

Lemma production_response_carries_detail_witness :
  (app Sample.empty (Sample.env_down Sample.production "ECONNREFUSED 10.0.0.5:27017")
     (Sample.request GET ["api"; "vehicles"] ∅)).1
  = json 500 (JMessage "Error fetching vehicles" (Some "ECONNREFUSED 10.0.0.5:27017")).
Proof.
  refine (proj1 (production_response_carries_detail Sample.empty
            (Sample.env_down Sample.production "ECONNREFUSED 10.0.0.5:27017")
            "ECONNREFUSED 10.0.0.5:27017" ∅ [] _ _)).
  - reflexivity.
  - reflexivity.
Defined.

(** ** C7: partial updates *)



(** ** C8: [createdAt] *)




(** ** C9: stored file names *)



(** ** C10: malformed vehicle ids *)

(** C10: [GET /api/vehicles/:id] with an id that is not a well-formed
    object id answers 500 with the handler's error body (the cast error as
    detail) and leaves the store as it was; it answers 404 exactly when the
    id is well formed, the data store is reachable and no vehicle is stored
    under the id. *)
Theorem malformed_vehicle_id_is_500 (st : Store) (env : Env) (id : string)
    (b : gmap string value) (fs : list File) :
  let out := app st env (mkRequest GET ["api"; "vehicles"; id] b fs) in
  (isValidObjectId id = false ->
   out = (json 500 (JMessage "Error fetching vehicle"
                      (Some (message (CastError "ObjectId" "_id")))), st)) /\
  (status out.1 = 404 <->
   isValidObjectId id = true /\ store_failure env = None /\
   lookup_doc (JS.toLowerCase id) (vehicles st) = None).
Proof.
  intros out. subst out. rewrite app_get_vehicle. unfold get_vehicle, findById. split.
  - intros Hid. by rewrite (castObjectId_invalid _ _ Hid).
  - unfold castObjectId, exec.
    destruct (isValidObjectId id); simpl; [|by split; [|intros [? _]]].
    destruct (store_failure env); simpl; [by split; [|intros (_ & ? & _)]|].
    destruct (lookup_doc _ _); simpl; [by split; [|intros (_ & _ & ?)]|done].
Qed.

Lemma malformed_vehicle_id_is_500_witness :
  app Sample.two_vehicles (Sample.env Sample.production 1700000000002 Sample.idA)
    (Sample.request GET ["api"; "vehicles"; "not-an-id"] ∅)
  = (json 500 (JMessage "Error fetching vehicle"
                 (Some (message (CastError "ObjectId" "_id")))), Sample.two_vehicles).
Proof.
  refine (proj1 (malformed_vehicle_id_is_500 Sample.two_vehicles
            (Sample.env Sample.production 1700000000002 Sample.idA) "not-an-id" ∅ []) _).
  vm_compute. reflexivity.
Defined.

(** * Further properties *)

(** ** Uploads that succeed *)

Module UploadMore.
Import JSFacts PathFacts UploadFacts.

Lemma names_from_cons (env : Env) (k : nat) (f : File) (parts : list File) :
  names_from env k (f :: parts)
  = filename (Date_now env k) (Math_random env k) f :: names_from env (S k) parts.
Proof.
  unfold names_from. simpl. rewrite Nat.add_0_r. f_equal.
  apply imap_ext. intros i x _. simpl. by rewrite Nat.add_succ_r.
Qed.

Lemma multer_parts_success (field : string) (env : Env) (parts : list File) :
  forall n k written dir,
    List.length parts <= n -> Forall (part_ok field) parts ->
    multer_parts field n env k parts written dir
    = (Ok (reverse written ++ names_from env k parts)%list,
       write_all (names_from env k parts) parts dir).
Proof.
  induction parts as [|f parts IH]; intros n k written dir Hlen Hok; simpl.
  - by rewrite app_nil_r.
  - apply Forall_cons in Hok as [(Hfield & Hfilter & Hsize) Hok].
    rewrite Hfield, String.eqb_refl. simpl.
    destruct n as [|n]; [simpl in Hlen; lia|]. rewrite Hfilter.
    destruct (N.ltb_spec fileSize_limit (N.of_nat (String.length (content f))))
      as [Hlt|Hle]; [lia|].
    rewrite IH by (simpl in Hlen; done || lia). rewrite names_from_cons.
    rewrite reverse_cons, <- app_assoc. done.
Qed.

Lemma multer_parts_Ok_inv (field : string) (env : Env) (parts : list File) :
  forall n k written dir names dir',
    multer_parts field n env k parts written dir = (Ok names, dir') ->
    List.length parts <= n /\ Forall (part_ok field) parts.
Proof.
  induction parts as [|f parts IH]; intros n k written dir names dir'; simpl.
  - intros _. split; [lia | done].
  - destruct (String.eqb (fieldname f) field) eqn:Hfield; simpl; [|done].
    apply String.eqb_eq in Hfield.
    destruct n as [|n]; [done|].
    destruct (fileFilter_cases f) as [Hfilter | Hfilter]; rewrite Hfilter; [|done].
    destruct (N.ltb_spec fileSize_limit (N.of_nat (String.length (content f))))
      as [Hlt|Hle]; [done|].
    intros H. apply IH in H as [Hlen Hok]. split; [simpl; lia|].
    apply Forall_cons. by repeat split.
Qed.

(** The middleware succeeds exactly when there are no more parts than
    allowed and each part is fine. *)
Lemma multer_Ok (field : string) (n : nat) (env : Env) (st : Store) (req : Request) :
  (exists names st', multer field n env st req = (Ok names, st')) <->
  List.length (files req) <= n /\ Forall (part_ok field) (files req).
Proof.
  unfold multer. split.
  - intros (names & st' & H).
    destruct (multer_parts _ _ _ _ _ _ _) as [r dir] eqn:Hm. injection H as -> _.
    by eapply multer_parts_Ok_inv.
  - intros [Hlen Hok]. rewrite (multer_parts_success _ _ _ _ _ _ _ Hlen Hok).
    by eexists _, _.
Qed.

End UploadMore.

Module UploadEndpoints.
Import UploadFacts UploadMore HandlerFacts.


Lemma multer_outcome (field : string) (n : nat) (env : Env) (st : Store) (req : Request) :
  (List.length (files req) <= n /\ Forall (part_ok field) (files req) /\
   multer field n env st req
   = (Ok (names_from env 0 (files req)),
      with_uploads (write_all (names_from env 0 (files req)) (files req) (uploads st)) st))
  \/ (~ (List.length (files req) <= n /\ Forall (part_ok field) (files req)) /\
      exists e st', multer field n env st req = (Throw e, st') /\
                    uploads st' ⊆ uploads st /\ vehicles st' = vehicles st /\
                    reservations st' = reservations st).
Proof.
  unfold multer.
  destruct (multer_parts field n env 0 (files req) [] (uploads st)) as [[names|e] dir] eqn:Hm.
  - left. destruct (multer_parts_Ok_inv _ _ _ _ _ _ _ _ _ Hm) as [Hlen Hok].
    rewrite (multer_parts_success _ _ _ _ _ _ _ Hlen Hok) in Hm.
    injection Hm as <- <-. done.
  - right. split.
    + intros [Hlen Hok]. rewrite (multer_parts_success _ _ _ _ _ _ _ Hlen Hok) in Hm. done.
    + exists e, (with_uploads dir st). repeat split. simpl.
      by eapply multer_parts_no_trace.
Qed.

Lemma names_from_length (env : Env) (k : nat) (parts : list File) :
  List.length (names_from env k parts) = List.length parts.
Proof. unfold names_from. apply length_imap. Qed.


End UploadEndpoints.

(** ** Stored file names *)

Module FilenameFacts.
Import JSFacts PathFacts.

Lemma pretty_N_char_digit (x : N) : is_digit (pretty_N_char x) = true.
Proof. unfold pretty_N_char. by repeat case_match. Qed.

Lemma pretty_N_go_digits (x : N) (s : string) :
  exists ds, pretty_N_go x s = ds ++ s /\ all_digits ds = true.
Proof.
  revert s. induction (N.lt_wf_0 x) as [x _ IH]; intros s.
  assert (x = 0 \/ 0 < x)%N as [-> | Hpos] by lia.
  - exists "". by rewrite pretty_N_go_0.
  - rewrite pretty_N_go_step by done.
    destruct (IH (x `div` 10)%N (N.div_lt x 10 Hpos eq_refl)
                (String (pretty_N_char (x `mod` 10)) s)) as (ds & -> & Hds).
    exists (ds ++ String (pretty_N_char (x `mod` 10)) ""). split.
    + by rewrite append_assoc.
    + clear IH. induction ds as [|c ds IHds]; simpl in *.
      * by rewrite pretty_N_char_digit.
      * apply andb_true_iff in Hds as [-> Hds]. by apply IHds.
Qed.

Lemma pretty_N_digits (x : N) : all_digits (pretty x) = true.
Proof.
  unfold pretty, pretty_N. case_decide; [done|].
  destruct (pretty_N_go_digits x "") as (ds & -> & Hds). by rewrite append_nil_r.
Qed.

(** A run of digits followed by something that is no digit splits in one
    way only. *)
Lemma digits_split (a a' r r' : string) :
  all_digits a = true -> all_digits a' = true ->
  stops_digits r = true -> stops_digits r' = true ->
  a ++ r = a' ++ r' -> a = a' /\ r = r'.
Proof.
  revert a'. induction a as [|c a IH]; intros a' Ha Ha' Hr Hr' H.
  - destruct a' as [|c' a']; [done|]. simpl in *.
    apply andb_true_iff in Ha' as [Hc' _]. subst r.
    simpl in Hr. by rewrite Hc' in Hr.
  - destruct a' as [|c' a']; simpl in *.
    + apply andb_true_iff in Ha as [Hc _]. subst r'. simpl in Hr'. by rewrite Hc in Hr'.
    + apply andb_true_iff in Ha as [_ Ha]. apply andb_true_iff in Ha' as [_ Ha'].
      injection H as -> H. destruct (IH a' Ha Ha' Hr Hr' H) as [-> ->]. done.
Qed.

Lemma lower_extname_stops (p : string) :
  stops_digits (JS.toLowerCase (Path.extname p)) = true.
Proof. destruct (extname_shape p) as [-> | [e ->]]; done. Qed.

(** A stored name tells the timestamp, the random integer and the
    lower-cased extension it was made of. *)
Lemma filename_inj (now rnd now' rnd' : N) (f f' : File) :
  filename now rnd f = filename now' rnd' f' ->
  now = now' /\ rnd = rnd' /\
  JS.toLowerCase (Path.extname (originalname f))
  = JS.toLowerCase (Path.extname (originalname f')).
Proof.
  unfold filename. rewrite !append_assoc. intros H.
  apply digits_split in H as [Hnow H];
    [|apply pretty_N_digits|apply pretty_N_digits|done|done].
  apply (inj pretty) in Hnow. injection H as H.
  apply digits_split in H as [Hrnd H];
    [|apply pretty_N_digits|apply pretty_N_digits
     |apply lower_extname_stops|apply lower_extname_stops].
  apply (inj pretty) in Hrnd. done.
Qed.

End FilenameFacts.

(** ** Letter case of file names *)

Module CaseFacts.
Import JS Path JSFacts PathFacts.










Lemma toLowerCase_idemp (s : string) : toLowerCase (toLowerCase s) = toLowerCase s.
Proof.
  induction s as [|c s IH]; simpl; [done|]. rewrite IH. f_equal.
  by destruct c as [[] [] [] [] [] [] [] []].
Qed.

End CaseFacts.

(** ** Routes and methods *)

Module RouteFacts.

Lemma dispatch_method (m : Method) (p : list string) :
  route_method (dispatch m p) = None \/ route_method (dispatch m p) = Some m.
Proof.
  unfold dispatch. generalize (JS.toLowerCase <$> take 2 p) (drop 2 p). intros l1 l2.
  destruct m; repeat case_match; auto.
Qed.

End RouteFacts.

(** ** Collections *)

Module CollectionFacts.
Import MongooseFacts.

Lemma lookup_doc_None (id : string) (c : Collection) :
  lookup_doc id c = None <-> id ∉ c.*1.
Proof.
  induction c as [|[id' d] c IH]; simpl.
  - split; [intros _; apply not_elem_of_nil | done].
  - destruct (String.eqb id id') eqn:E.
    + apply String.eqb_eq in E as ->. split; [done|]. intros []. by left.
    + apply String.eqb_neq in E. rewrite IH, not_elem_of_cons. naive_solver.
Qed.

Lemma lookup_doc_app_new (id j : string) (d : gmap string value) (c : Collection) :
  lookup_doc id c = None ->
  lookup_doc j (c ++ [(id, d)])%list = if String.eqb j id then Some d else lookup_doc j c.
Proof.
  intros Hid. induction c as [|[id' d'] c IH]; simpl in *; [done|].
  destruct (String.eqb id id') eqn:E; [done|]. apply String.eqb_neq in E.
  destruct (String.eqb j id') eqn:Ej.
  - apply String.eqb_eq in Ej as ->.
    destruct (String.eqb id' id) eqn:E'; [|done]. apply String.eqb_eq in E'. congruence.
  - by apply IH.
Qed.

Lemma replace_doc_ids (id : string) (d : gmap string value) (c : Collection) :
  (replace_doc id d c).*1 = c.*1.
Proof.
  induction c as [|[id' d'] c IH]; simpl; [done|].
  destruct (String.eqb id id'); simpl; [done | by f_equal].
Qed.

Lemma remove_doc_ids (id : string) (c : Collection) :
  NoDup c.*1 -> NoDup (remove_doc id c).*1 /\
                (forall j, j ∈ (remove_doc id c).*1 <-> j ∈ c.*1 /\ j <> id).
Proof.
  induction c as [|[id' d'] c IH]; simpl; intros Hnd.
  - split; [done|]. intros j. split; [by intros ?%elem_of_nil | by intros [?%elem_of_nil _]].
  - apply NoDup_cons in Hnd as [Hnotin Hnd]. destruct (IH Hnd) as [IH1 IH2].
    destruct (String.eqb id id') eqn:E.
    + apply String.eqb_eq in E as <-. split; [done|]. intros j. rewrite elem_of_cons.
      split; [intros Hj; split; [by right | by intros ->] | naive_solver].
    + apply String.eqb_neq in E. simpl. split.
      * apply NoDup_cons. split; [|done]. rewrite IH2. naive_solver.
      * intros j. rewrite !elem_of_cons, IH2. naive_solver.
Qed.

Lemma lookup_remove_eq (id : string) (c : Collection) :
  NoDup c.*1 -> lookup_doc id (remove_doc id c) = None.
Proof.
  intros Hnd. apply lookup_doc_None. destruct (remove_doc_ids id c Hnd) as [_ H].
  rewrite H. naive_solver.
Qed.

Lemma lookup_remove_ne (id j : string) (c : Collection) :
  j <> id -> lookup_doc j (remove_doc id c) = lookup_doc j c.
Proof.
  intros Hne. induction c as [|[id' d'] c IH]; simpl; [done|].
  destruct (String.eqb id id') eqn:E; simpl.
  - apply String.eqb_eq in E as <-. apply String.eqb_neq in Hne. by rewrite Hne.
  - by rewrite IH.
Qed.

Lemma save_Ok_fresh (M : Model) (env : Env) (b : gmap string value) (c c' : Collection)
    (doc : Doc) :
  save M env b c = Ok (doc, c') -> lookup_doc (new_ObjectId env) c = None.
Proof.
  unfold save. intros H. apply bind_Ok in H as (d & Hd & H).
  apply bind_Ok in H as (u & Hu & H). by destruct (lookup_doc _ c).
Qed.

(** *** Sorting *)







End CollectionFacts.

(** ** What a request can change *)

Module EffectFacts.
Import MongooseFacts HandlerFacts UpdateFacts ListFacts InvariantFacts RouteFacts
  CollectionFacts.

(** A route that is not an upload answers an error without touching the
    store; a read never touches it. *)
Lemma run_route_effect (r : Route) (st : Store) (env : Env) (req : Request) :
  let out := run_route r st env req in
  (vehicles out.2 = vehicles st /\ reservations out.2 = reservations st /\
   (r <> PostUpload -> r <> PostUploadMultiple -> out.2 = st))
  \/ (status out.1 = 200 \/ status out.1 = 201) /\ route_method r <> Some GET.
Proof.
  destruct r; simpl.
  - left. unfold post_upload. destruct (multer_keeps_records "image" 1 env st req) as [Hv Hr].
    destruct (multer _ _ _ _ _) as [[[|name names]|e] st']; simpl in *; done.
  - left. unfold post_upload_multiple.
    destruct (multer_keeps_records "images" 3 env st req) as [Hv Hr].
    destruct (multer _ _ _ _ _) as [[[|name names]|e] st']; simpl in *; done.
  - left. unfold get_vehicles. by destruct (find_sort_desc _ _ _).
  - left. unfold get_vehicle. by destruct (findById _ _ _) as [[?|]|].
  - unfold post_vehicles. destruct (save _ _ _ _) as [[? ?]|]; simpl; [right|left]; naive_solver.
  - unfold put_vehicle.
    destruct (findByIdAndUpdate _ _ _ _ _) as [[[?|] ?]|]; simpl; [right|left..]; naive_solver.
  - unfold delete_vehicle.
    destruct (findByIdAndDelete _ _ _) as [[[?|] ?]|]; simpl; [right|left..]; naive_solver.
  - left. unfold get_reservations. by destruct (find_sort_desc _ _ _).
  - unfold post_reservations.
    destruct (save _ _ _ _) as [[? ?]|]; simpl; [right|left]; naive_solver.
  - unfold put_reservation.
    destruct (findByIdAndUpdate _ _ _ _ _) as [[[?|] ?]|]; simpl; [right|left..]; naive_solver.
  - unfold delete_reservation.
    destruct (findByIdAndDelete _ _ _) as [[[?|] ?]|]; simpl; [right|left..]; naive_solver.
  - by left.
  - by left.
Qed.

(** A property of a collection that creating, updating and deleting keep is
    kept by every request. *)
Lemma app_vehicles_kept (Q : Collection -> Prop) (st : Store) (env : Env) (req : Request) :
  Q (vehicles st) ->
  Q (vehicles (post_vehicles st env req).2) ->
  (forall id, Q (vehicles (put_vehicle st env id req).2)) ->
  (forall id, Q (vehicles (delete_vehicle st env id).2)) ->
  Q (vehicles (app st env req).2).
Proof.
  intros Hst Hpost Hput Hdel. unfold app.
  destruct (match method req with GET => _ | _ => _ end); [done|].
  destruct (dispatch _ _) as [| | | | |id|id| | |id|id| |] eqn:E; simpl; try done.
  - destruct (multer_keeps_records "image" 1 env st req) as [Hv _].
    unfold post_upload.
    destruct (multer _ _ _ _ _) as [[[|name names]|e] st']; simpl in *; by rewrite Hv.
  - destruct (multer_keeps_records "images" 3 env st req) as [Hv _].
    unfold post_upload_multiple.
    destruct (multer _ _ _ _ _) as [[[|name names]|e] st']; simpl in *; by rewrite Hv.
  - unfold get_vehicles. by destruct (find_sort_desc _ _ _).
  - unfold get_vehicle. by destruct (findById _ _ _) as [[?|]|].
  - unfold get_reservations. by destruct (find_sort_desc _ _ _).
  - unfold post_reservations. by destruct (save _ _ _ _) as [[? ?]|].
  - unfold put_reservation. by destruct (findByIdAndUpdate _ _ _ _ _) as [[[?|] ?]|].
  - unfold delete_reservation. by destruct (findByIdAndDelete _ _ _) as [[[?|] ?]|].
Qed.

Lemma app_reservations_kept (Q : Collection -> Prop) (st : Store) (env : Env)
    (req : Request) :
  Q (reservations st) ->
  Q (reservations (post_reservations st env req).2) ->
  (forall id, Q (reservations (put_reservation st env id req).2)) ->
  (forall id, Q (reservations (delete_reservation st env id).2)) ->
  Q (reservations (app st env req).2).
Proof.
  intros Hst Hpost Hput Hdel. unfold app.
  destruct (match method req with GET => _ | _ => _ end); [done|].
  destruct (dispatch _ _) as [| | | | |id|id| | |id|id| |] eqn:E; simpl; try done.
  - destruct (multer_keeps_records "image" 1 env st req) as [_ Hr].
    unfold post_upload.
    destruct (multer _ _ _ _ _) as [[[|name names]|e] st']; simpl in *; by rewrite Hr.
  - destruct (multer_keeps_records "images" 3 env st req) as [_ Hr].
    unfold post_upload_multiple.
    destruct (multer _ _ _ _ _) as [[[|name names]|e] st']; simpl in *; by rewrite Hr.
  - unfold get_vehicles. by destruct (find_sort_desc _ _ _).
  - unfold get_vehicle. by destruct (findById _ _ _) as [[?|]|].
  - unfold post_vehicles. by destruct (save _ _ _ _) as [[? ?]|].
  - unfold put_vehicle. by destruct (findByIdAndUpdate _ _ _ _ _) as [[[?|] ?]|].
  - unfold delete_vehicle. by destruct (findByIdAndDelete _ _ _) as [[[?|] ?]|].
  - unfold get_reservations. by destruct (find_sort_desc _ _ _).
Qed.

(** The three writers keep the ids of a collection distinct. *)
Lemma save_ids (M : Model) (env : Env) (b : gmap string value) (c c' : Collection)
    (doc : Doc) :
  NoDup c.*1 -> save M env b c = Ok (doc, c') -> NoDup c'.*1.
Proof.
  intros Hnd Hsave. pose proof (save_Ok_fresh _ _ _ _ _ _ Hsave) as Hfresh.
  pose proof (save_Ok_id _ _ _ _ _ _ Hsave) as Hid.
  apply save_Ok in Hsave as (_ & _ & ->). rewrite fmap_app. apply NoDup_app.
  split; [done|]. split; [|apply NoDup_singleton].
  intros j Hj [->|[]%elem_of_nil]%elem_of_cons. simpl in Hid. rewrite Hid in Hj.
  by apply lookup_doc_None in Hfresh.
Qed.

Lemma update_ids (M : Model) (env : Env) (id : string) (b : gmap string value)
    (c c' : Collection) (o : option Doc) :
  findByIdAndUpdate M env id b c = Ok (o, c') -> c'.*1 = c.*1.
Proof.
  intros H. destruct o as [doc|].
  - apply findByIdAndUpdate_Some in H as (d & set & _ & _ & _ & _ & ->).
    apply replace_doc_ids.
  - by apply findByIdAndUpdate_None in H as (_ & _ & _ & ->).
Qed.

Lemma delete_ids (env : Env) (id : string) (c c' : Collection) (o : option Doc) :
  NoDup c.*1 -> findByIdAndDelete env id c = Ok (o, c') -> NoDup c'.*1.
Proof.
  intros Hnd H. apply findByIdAndDelete_Ok in H as [-> | ->]; [done|].
  by apply remove_doc_ids.
Qed.

End EffectFacts.

(** ** Required fields and defaults *)

Module FieldFacts.
Import MongooseFacts HandlerFacts UpdateFacts ResourceFacts ListFacts InvariantFacts
  CollectionFacts EffectFacts.








End FieldFacts.

(** ** Writing several files *)

Module WriteFacts.

Lemma write_all_other (names : list string) (parts : list File) (dir : gmap string string)
    (name : string) :
  name ∉ names -> write_all names parts dir !! name = dir !! name.
Proof.
  unfold write_all. revert parts dir.
  induction names as [|n names IH]; intros parts dir Hnot; [done|].
  destruct parts as [|p parts]; [done|]. simpl.
  apply not_elem_of_cons in Hnot as [Hne Hnot].
  rewrite IH by done. by rewrite lookup_insert_ne.
Qed.

(** Written under distinct names, every part is in the directory. *)
Lemma write_all_lookup (names : list string) (parts : list File) (dir : gmap string string)
    (i : nat) (name : string) (f : File) :
  NoDup names -> names !! i = Some name -> parts !! i = Some f ->
  write_all names parts dir !! name = Some (content f).
Proof.
  revert parts dir i. induction names as [|n names IH]; intros parts dir i Hnd Hn Hp;
    [done|].
  destruct parts as [|p parts]; [done|].
  apply NoDup_cons in Hnd as [Hnot Hnd]. destruct i as [|i]; simpl in *.
  - injection Hn as ->. injection Hp as ->.
    change (write_all names parts (<[name:=content f]> dir) !! name = Some (content f)).
    rewrite write_all_other by done. by rewrite lookup_insert_eq.
  - change (write_all names parts (<[n:=content p]> dir) !! name = Some (content f)).
    by eapply IH.
Qed.

Lemma names_from_lookup (env : Env) (k i : nat) (parts : list File) (f : File) :
  parts !! i = Some f ->
  names_from env k parts !! i
  = Some (filename (Date_now env (k + i)) (Math_random env (k + i)) f).
Proof. intros Hf. unfold names_from. by rewrite list_lookup_imap, Hf. Qed.

End WriteFacts.

(** ** The further properties *)

Import UploadMore UploadEndpoints FilenameFacts CaseFacts RouteFacts CollectionFacts
  EffectFacts FieldFacts WriteFacts.









(** X5: Two stored names made from different pairs of timestamp and random
    integer differ, whatever the two original names are. *)
Theorem stored_filename_injective (now rnd now' rnd' : N) (f f' : File) :
  (now, rnd) <> (now', rnd') -> filename now rnd f <> filename now' rnd' f'.
Proof. intros Hne H. apply filename_inj in H as (-> & -> & _). done. Qed.

Lemma stored_filename_injective_witness :
  filename 1700000000000 42 Sample.png_file <> filename 1700000000000 43 Sample.png_file.
Proof.
  apply (stored_filename_injective 1700000000000 42 1700000000000 43).
  intros H. discriminate H.
Defined.



(** X7: A GET request, whatever its path, leaves the store (vehicles,
    reservations, uploaded files) as it was. *)
Theorem reads_leave_store (st : Store) (env : Env) (req : Request) :
  method req = GET -> (app st env req).2 = st.
Proof.
  intros Hm. unfold app.
  destruct (match method req with GET => _ | _ => _ end); [done|].
  destruct (run_route_effect (dispatch (method req) (path req)) st env req)
    as [(_ & _ & Hst) | [_ Hget]].
  - destruct (dispatch_method (method req) (path req)) as [Hr | Hr];
      rewrite Hm in *; apply Hst; intros E; by rewrite E in Hr.
  - destruct (dispatch_method (method req) (path req)) as [Hr | Hr].
    + destruct (dispatch (method req) (path req)); simpl in Hr; done.
    + rewrite Hm in *. done.
Qed.

Lemma reads_leave_store_witness :
  (app Sample.two_vehicles (Sample.env Sample.production 1700000000002 Sample.idA)
     (Sample.request GET ["api"; "vehicles"; Sample.idA] ∅)).2 = Sample.two_vehicles.
Proof. apply reads_leave_store. reflexivity. Defined.

(** X8: A request under /api/vehicles changes neither the reservations nor
    the uploads; a request under /api/reservations changes neither the
    vehicles nor the uploads, and its response and the reservations it
    leaves are the same whatever the vehicles collection holds (a
    reservation's vehicleId is never checked against the vehicles). *)
Theorem resources_do_not_interfere (st : Store) (env : Env) (m : Method)
    (rest : list string) (b : gmap string value) (fs : list File) :
  let on_vehicles := app st env (mkRequest m ("api" :: "vehicles" :: rest) b fs) in
  let on_reservations := app st env (mkRequest m ("api" :: "reservations" :: rest) b fs) in
  (reservations on_vehicles.2 = reservations st /\ uploads on_vehicles.2 = uploads st) /\
  (vehicles on_reservations.2 = vehicles st /\ uploads on_reservations.2 = uploads st) /\
  (forall c : Collection,
     let other := app (with_vehicles c st) env
                    (mkRequest m ("api" :: "reservations" :: rest) b fs) in
     other.1 = on_reservations.1 /\ reservations other.2 = reservations on_reservations.2).
Proof.
  intros on_vehicles on_reservations. subst on_vehicles on_reservations.
  unfold app. destruct m, rest as [|id [|x rest]]; simpl;
    unfold get_vehicles, get_vehicle, post_vehicles, put_vehicle, delete_vehicle,
      get_reservations, post_reservations, put_reservation, delete_reservation, not_found;
    simpl;
    repeat match goal with
      | |- context [match ?x with _ => _ end] => destruct x; simpl
      end; done.
Qed.

(** X9: A vehicle created with 201 can be read back: when the new id is a
    well-formed lower-case object id and the data store is reachable, a GET
    of that id answers 200 with the very record the POST returned. *)
Theorem created_vehicle_can_be_read (st : Store) (env env' : Env)
    (b b' : gmap string value) (fs fs' : list File) :
  isValidObjectId (new_ObjectId env) = true ->
  JS.toLowerCase (new_ObjectId env) = new_ObjectId env ->
  store_failure env' = None ->
  let created := app st env (mkRequest POST ["api"; "vehicles"] b fs) in
  status created.1 = 201 ->
  app created.2 env' (mkRequest GET ["api"; "vehicles"; new_ObjectId env] b' fs')
  = (json 200 (payload created.1), created.2).
Proof.
  intros Hvalid Hlower Hup created Hstatus.
  change (app created.2 env' _) with (get_vehicle created.2 env' (new_ObjectId env)).
  subst created. change (app st env ?r) with (post_vehicles st env r) in *.
  unfold post_vehicles in *.
  destruct (save _ _ _ _) as [[doc c]|e] eqn:Hsave; simpl in *; [|done].
  pose proof (save_Ok_fresh _ _ _ _ _ _ Hsave) as Hfresh.
  pose proof (save_Ok_id _ _ _ _ _ _ Hsave) as Hid.
  apply save_Ok in Hsave as (_ & _ & ->). destruct doc as [id d]. simpl in Hid. subst id.
  unfold get_vehicle, findById, castObjectId, exec. rewrite Hvalid, Hup, Hlower. simpl.
  rewrite (lookup_doc_app_new _ _ _ _ Hfresh), String.eqb_refl. done.
Qed.

Lemma created_vehicle_can_be_read_witness :
  let env := Sample.env Sample.production 1700000000000 Sample.idA in
  let created := app Sample.empty env (Sample.request POST ["api"; "vehicles"] Sample.vehicleA) in
  app created.2 env (Sample.request GET ["api"; "vehicles"; Sample.idA] ∅)
  = (json 200 (payload created.1), created.2).
Proof.
  refine (created_vehicle_can_be_read Sample.empty
            (Sample.env Sample.production 1700000000000 Sample.idA)
            (Sample.env Sample.production 1700000000000 Sample.idA)
            Sample.vehicleA ∅ [] [] _ _ _ _).
  - vm_compute. reflexivity.
  - vm_compute. reflexivity.
  - reflexivity.
  - vm_compute. reflexivity.
Defined.



(** X11: A vehicle created with 201 from a payload without rating,
    isPopular, gallery or features has the rating 5, is not popular, and has
    an empty gallery and an empty list of features. *)
Theorem new_vehicle_defaults (st : Store) (env : Env) (b : gmap string value)
    (fs : list File) :
  let out := app st env (mkRequest POST ["api"; "vehicles"] b fs) in
  status out.1 = 201 ->
  (b !! "rating" = None -> returned_field "rating" out.1 = Some (VNum 5)) /\
  (b !! "isPopular" = None -> returned_field "isPopular" out.1 = Some (VBool false)) /\
  (b !! "gallery" = None -> returned_field "gallery" out.1 = Some (VArr [])) /\
  (b !! "features" = None -> returned_field "features" out.1 = Some (VArr [])).
Proof.
  intros out. subst out. change (app st env ?r) with (post_vehicles st env r).
  unfold post_vehicles, returned_field.
  destruct (save _ _ _ _) as [[doc c]|e] eqn:Hsave; simpl; [|done]. intros _.
  apply save_Ok in Hsave as (Hd & _). simpl in Hd.
  destruct (init_doc_lookup _ _ _ _ vehicle_paths_NoDup Hd) as [Hin _].
  repeat split; intros Hb.
  - assert (H : ("rating", Leaf (mkPath TNumber false None (Some (DConst (VNum 5)))))
                ∈ vehicleSchema) by (unfold vehicleSchema; set_solver).
    apply Hin in H. simpl in H. rewrite Hb in H. by injection H.
  - assert (H : ("isPopular", Leaf (mkPath TBoolean false None (Some (DConst (VBool false)))))
                ∈ vehicleSchema) by (unfold vehicleSchema; set_solver).
    apply Hin in H. simpl in H. rewrite Hb in H. by injection H.
  - assert (H : ("gallery", ArrayOf TString) ∈ vehicleSchema)
      by (unfold vehicleSchema; set_solver).
    apply Hin in H. simpl in H. rewrite Hb in H. by injection H.
  - assert (H : ("features", ArrayOf TString) ∈ vehicleSchema)
      by (unfold vehicleSchema; set_solver).
    apply Hin in H. simpl in H. rewrite Hb in H. by injection H.
Qed.

Lemma new_vehicle_defaults_witness :
  returned_field "rating"
    (app Sample.empty (Sample.env Sample.production 1700000000000 Sample.idA)
       (mkRequest POST ["api"; "vehicles"] Sample.vehicleA [])).1 = Some (VNum 5).
Proof.
  refine (proj1 (new_vehicle_defaults Sample.empty
            (Sample.env Sample.production 1700000000000 Sample.idA) Sample.vehicleA [] _) _).
  - vm_compute. reflexivity.
  - vm_compute. reflexivity.
Defined.

(** X12: After a PUT /api/vehicles/:id that answers 200, a GET of the same
    id while the data store is reachable answers 200 with the very record
    the PUT returned. *)
Theorem updated_vehicle_can_be_read (st : Store) (env env' : Env) (id : string)
    (b b' : gmap string value) (fs fs' : list File) :
  store_failure env' = None ->
  let updated := app st env (mkRequest PUT ["api"; "vehicles"; id] b fs) in
  status updated.1 = 200 ->
  app updated.2 env' (mkRequest GET ["api"; "vehicles"; id] b' fs')
  = (json 200 (payload updated.1), updated.2).
Proof.
  intros Hup updated Hstatus.
  change (app updated.2 env' _) with (get_vehicle updated.2 env' id).
  subst updated. change (app st env ?r) with (put_vehicle st env id r) in *.
  unfold put_vehicle in *. simpl in *.
  destruct (findByIdAndUpdate _ _ _ _ _) as [[[doc|] c]|e] eqn:Hupd; simpl in *; [|done..].
  pose proof Hupd as Hupd'.
  apply findByIdAndUpdate_Some in Hupd as (d & set & Hid & Hd & Hset & Hdoc & ->).
  assert (Hvalid : isValidObjectId id = true).
  { unfold findByIdAndUpdate, castObjectId in Hupd'. by destruct (isValidObjectId id). }
  unfold get_vehicle, findById, castObjectId, exec. rewrite Hvalid, Hup. simpl.
  rewrite <- Hid, (lookup_replace_eq _ _ _ _ Hd). by destruct doc.
Qed.

Lemma updated_vehicle_can_be_read_witness :
  let env := Sample.env Sample.production 1700000000002 Sample.idA in
  let updated := app Sample.two_vehicles env
                   (Sample.request PUT ["api"; "vehicles"; Sample.idA]
                      {[ "price" := VStr "99" ]}) in
  app updated.2 env (Sample.request GET ["api"; "vehicles"; Sample.idA] ∅)
  = (json 200 (payload updated.1), updated.2).
Proof.
  refine (updated_vehicle_can_be_read Sample.two_vehicles
            (Sample.env Sample.production 1700000000002 Sample.idA)
            (Sample.env Sample.production 1700000000002 Sample.idA)
            Sample.idA {[ "price" := VStr "99" ]} ∅ [] [] _ _).
  - reflexivity.
  - vm_compute. reflexivity.
Defined.

(** X13: For either resource, in a collection with distinct ids, a DELETE
    that answers 200 found the record, removes it and no other, and the same
    DELETE repeated while the data store is reachable answers 404. *)
Theorem delete_removes_the_record (R : Resource) (st : Store) (env env' : Env) (id : string)
    (b b' : gmap string value) (fs fs' : list File) :
  is_resource R -> NoDup (collection R st).*1 ->
  let out := app st env (mkRequest DELETE ["api"; nouns R; id] b fs) in
  status out.1 = 200 ->
  is_Some (lookup_doc (JS.toLowerCase id) (collection R st)) /\
  lookup_doc (JS.toLowerCase id) (collection R out.2) = None /\
  (forall j, j <> JS.toLowerCase id ->
             lookup_doc j (collection R out.2) = lookup_doc j (collection R st)) /\
  (store_failure env' = None ->
   status (app out.2 env' (mkRequest DELETE ["api"; nouns R; id] b' fs')).1 = 404).
Proof.
  intros HR Hnd out. subst out. rewrite !app_resource_delete by done.
  intros Hstatus.
  assert (Hres : is_Some (lookup_doc (JS.toLowerCase id) (collection R st)) /\
                 isValidObjectId id = true /\
                 collection R (resource_delete R st env id).2
                 = remove_doc (JS.toLowerCase id) (collection R st)).
  { revert Hstatus. unfold resource_delete, findByIdAndDelete, castObjectId, exec.
    destruct (isValidObjectId id); simpl; [|done].
    destruct (store_failure env); simpl; [done|].
    destruct (lookup_doc _ _) as [d|] eqn:Hd; simpl; [|done]. intros _.
    split; [by eexists|]. split; [done|]. by destruct HR as [-> | ->]. }
  destruct Hres as (Hsome & Hvalid & Hc). split; [done|]. rewrite Hc.
  split; [by apply lookup_remove_eq|]. split.
  - intros j Hj. by apply lookup_remove_ne.
  - intros Hup. apply (resource_delete_status R). rewrite Hc.
    split; [done|]. split; [done|]. by apply lookup_remove_eq.
Qed.

Lemma delete_removes_the_record_witness :
  lookup_doc Sample.idA
    (vehicles (app Sample.two_vehicles
                 (Sample.env Sample.production 1700000000002 Sample.idA)
                 (Sample.request DELETE ["api"; "vehicles"; Sample.idA] ∅)).2) = None.
Proof.
  refine (proj1 (proj2 (delete_removes_the_record vehicleResource Sample.two_vehicles
            (Sample.env Sample.production 1700000000002 Sample.idA)
            (Sample.env Sample.production 1700000000002 Sample.idA)
            Sample.idA ∅ ∅ [] [] _ _ _))).
  - left. reflexivity.
  - vm_compute. repeat constructor; intros H; inversion H as [|? ? ? H']; inversion H'.
  - vm_compute. reflexivity.
Defined.

(** X14: No request makes two records of a collection share an id: if the
    ids of the vehicles (of the reservations) are distinct before a request,
    they are distinct after it. *)
Theorem ids_stay_distinct (st : Store) (env : Env) (req : Request) :
  (NoDup (vehicles st).*1 -> NoDup (vehicles (app st env req).2).*1) /\
  (NoDup (reservations st).*1 -> NoDup (reservations (app st env req).2).*1).
Proof.
  split; intros Hnd.
  - apply (app_vehicles_kept (fun c => NoDup c.*1)); [done|..].
    + unfold post_vehicles. destruct (save _ _ _ _) as [[doc c]|] eqn:Hs; simpl; [|done].
      by eapply save_ids.
    + intros id. unfold put_vehicle.
      destruct (findByIdAndUpdate _ _ _ _ _) as [[[doc|] c]|] eqn:Hu; simpl; [|done..].
      by rewrite (update_ids _ _ _ _ _ _ _ Hu).
    + intros id. unfold delete_vehicle.
      destruct (findByIdAndDelete _ _ _) as [[[doc|] c]|] eqn:Hd; simpl; [|done..].
      by eapply delete_ids.
  - apply (app_reservations_kept (fun c => NoDup c.*1)); [done|..].
    + unfold post_reservations. destruct (save _ _ _ _) as [[doc c]|] eqn:Hs; simpl; [|done].
      by eapply save_ids.
    + intros id. unfold put_reservation.
      destruct (findByIdAndUpdate _ _ _ _ _) as [[[doc|] c]|] eqn:Hu; simpl; [|done..].
      by rewrite (update_ids _ _ _ _ _ _ _ Hu).
    + intros id. unfold delete_reservation.
      destruct (findByIdAndDelete _ _ _) as [[[doc|] c]|] eqn:Hd; simpl; [|done..].
      by eapply delete_ids.
Qed.

Lemma ids_stay_distinct_witness :
  NoDup (vehicles Sample.two_vehicles).*1.
Proof.
  unfold Sample.two_vehicles.
  apply (proj1 (ids_stay_distinct _ _ _)).
  apply (proj1 (ids_stay_distinct _ _ _)).
  apply NoDup_nil_2.
Defined.



(** X16: A request answered with a status of 400 or above leaves the
    vehicles and the reservations as they were. *)
Theorem errors_leave_records (st : Store) (env : Env) (req : Request) :
  400 <= status (app st env req).1 ->
  vehicles (app st env req).2 = vehicles st /\
  reservations (app st env req).2 = reservations st.
Proof.
  unfold app. destruct (match method req with GET => _ | _ => _ end) as [r|] eqn:Hs.
  - done.
  - intros Hstatus.
    destruct (run_route_effect (dispatch (method req) (path req)) st env req)
      as [(Hv & Hr & _) | [[H|H] _]]; [done | simpl in *; lia..].
Qed.

Lemma errors_leave_records_witness :
  vehicles (app Sample.two_vehicles (Sample.env_down Sample.production "down")
              (Sample.request DELETE ["api"; "vehicles"; Sample.idA] ∅)).2
  = vehicles Sample.two_vehicles.
Proof.
  refine (proj1 (errors_leave_records Sample.two_vehicles
                   (Sample.env_down Sample.production "down")
                   (Sample.request DELETE ["api"; "vehicles"; Sample.idA] ∅) _)).
  vm_compute. lia.
Defined.





(** X19: When the readings of the clock and of the random source differ
    between the parts of a request, every part of an accepted POST
    /api/upload-multiple is in the upload directory under its own generated
    name with its own bytes. *)
Theorem multiple_upload_keeps_every_file (st : Store) (env : Env) (b : gmap string value)
    (fs : list File) :
  (forall i j, i < List.length fs -> j < List.length fs -> i <> j ->
     (Date_now env i, Math_random env i) <> (Date_now env j, Math_random env j)) ->
  let out := app st env (mkRequest POST ["api"; "upload-multiple"] b fs) in
  status out.1 = 200 ->
  forall i f, fs !! i = Some f ->
    uploads out.2 !! filename (Date_now env i) (Math_random env i) f = Some (content f).
Proof.
  intros Hdraws out. subst out.
  change (app st env ?r) with (post_upload_multiple st env r). unfold post_upload_multiple.
  destruct (multer_outcome "images" 3 env st (mkRequest POST ["api"; "upload-multiple"] b fs))
    as [(Hlen & Hok & ->) | (Hnot & e & st' & -> & _)]; simpl in *; [|done].
  assert (Hst : forall names, uploads
      (match names with
       | [] => (json 400 (JMessage "No files uploaded" None),
                with_uploads (write_all (names_from env 0 fs) fs (uploads st)) st)
       | _ :: _ => (json 200 (JImageUrls ((λ name : string, "/uploads/" ++ name) <$> names)),
                    with_uploads (write_all (names_from env 0 fs) fs (uploads st)) st)
       end).2 = write_all (names_from env 0 fs) fs (uploads st)) by by intros [].
  intros _ i f Hf. rewrite Hst.
  apply (write_all_lookup _ _ _ i); [|by apply names_from_lookup|done].
  apply NoDup_alt. intros i1 i2 name H1 H2.
  destruct (fs !! i1) as [f1|] eqn:Hf1;
    [|apply lookup_ge_None in Hf1; apply lookup_lt_Some in H1;
      rewrite names_from_length in H1; lia].
  destruct (fs !! i2) as [f2|] eqn:Hf2;
    [|apply lookup_ge_None in Hf2; apply lookup_lt_Some in H2;
      rewrite names_from_length in H2; lia].
  rewrite (names_from_lookup _ _ _ _ _ Hf1) in H1.
  rewrite (names_from_lookup _ _ _ _ _ Hf2) in H2. simpl in *.
  injection H1 as H1. injection H2 as H2. rewrite <- H2 in H1.
  apply filename_inj in H1 as (Hn & Hr & _).
  destruct (decide (i1 = i2)) as [|Hne]; [done|].
  destruct (Hdraws i1 i2); [by eapply lookup_lt_Some..|done|by rewrite Hn, Hr].
Qed.

Lemma multiple_upload_keeps_every_file_witness :
  let env := mkEnv Sample.production (fun _ => 1700000000000%N) (fun k => N.of_nat k)
               Sample.idA None in
  let a := mkFile "images" "a.png" "image/png" "bytes of a" in
  let c := mkFile "images" "c.gif" "image/gif" "bytes of c" in
  uploads (app Sample.empty env (mkRequest POST ["api"; "upload-multiple"] ∅ [a; c])).2
    !! filename 1700000000000 1 c = Some "bytes of c".
Proof.
  intros env a c.
  refine (multiple_upload_keeps_every_file Sample.empty env ∅ [a; c] _ _ 1 c _).
  - intros i j Hi Hj Hne H. injection H as H. lia.
  - vm_compute. reflexivity.
  - reflexivity.
Defined.

(** X20: When the one file part of POST /api/upload is named "image" and
    refused by the validator, the response is 500 "Something went wrong!",
    the validator's message is in the body exactly when NODE_ENV is
    "development", and the store is left as it was. *)
Theorem refused_upload_detail (st : Store) (env : Env) (b : gmap string value) (f : File) :
  fieldname f = "image" -> fileFilter f <> Ok true ->
  app st env (mkRequest POST ["api"; "upload"] b [f])
  = (json 500 (JMessage "Something went wrong!"
                 (if bool_decide (NODE_ENV env = Some "development")
                  then Some fileFilter_error else None)), st).
Proof.
  intros Hfield Hbad. change (app st env ?r) with (post_upload st env r).
  unfold post_upload, multer. simpl. rewrite Hfield. simpl.
  destruct (UploadFacts.fileFilter_cases f) as [H | H]; [done|]. rewrite H. simpl.
  unfold errorHandler. simpl. by destruct st.
Qed.

Lemma refused_upload_detail_witness :
  app Sample.empty (Sample.env (Some "development") 1700000000000 Sample.idA)
    (mkRequest POST ["api"; "upload"] ∅ [Sample.text_file])
  = (json 500 (JMessage "Something went wrong!" (Some fileFilter_error)), Sample.empty).
Proof.
  refine (refused_upload_detail Sample.empty
            (Sample.env (Some "development") 1700000000000 Sample.idA) ∅
            Sample.text_file _ _).
  - reflexivity.
  - vm_compute. discriminate.
Defined.

